(** * python-add-module-as-layer: a shallow embedding of [lambda_handler]

    The repository is one AWS Lambda handler (python-add-module-as-layer.py).
    It asks pip for a wheel of a module, copies every member of the wheel into
    a new zip under [/python/lib/python<X.Y>/site-packages/], publishes the new
    zip as a Lambda layer and removes its temporary files.

    The embedding follows the handler line by line.  Python values become
    Rocq values ([str] is [string], [bytes] is [list byte], the [event] dict
    is a [gmap string string]); the file system under [/tmp] and the record of
    calls made to boto3 are threaded through a state-and-exception monad; pip,
    boto3, the clock and [sys.version_info] are fields of an environment
    record, because the handler only looks at what they answer. *)

From Stdlib Require Import ZArith Ascii String DecimalString.
From Stdlib.Strings Require Import Byte.
From stdpp Require Import base option list strings gmap.

Local Open Scope string_scope.
Local Open Scope list_scope.

(** ** Python exceptions and results *)

Inductive PyExn :=
| KeyError (key : string)
| IndexError
| TypeError
| ValueError
| NotImplementedError
| RuntimeError
| FileExistsError
| FileNotFoundError
| NotADirectoryError
| IsADirectoryError
| OSError (errno : nat)   (* 16 EBUSY, 22 EINVAL, 36 ENAMETOOLONG, 39 ENOTEMPTY *)
| BadZipFile
| StructError.            (* struct.error *)

(** A computation that either yields a value or raises. *)
Inductive res (A : Type) :=
| Ok (a : A)
| Raise (e : PyExn).
Arguments Ok {A} a.
Arguments Raise {A} e.

#[global] Instance res_ret : MRet res := fun A a => Ok a.
#[global] Instance res_bind : MBind res := fun A B k r =>
  match r with
  | Ok a => k a
  | Raise e => Raise e
  end.

(** ** The [str] methods the handler uses *)

Module PyStr.

(** [s.split(sep)] for a one-character separator. *)
Fixpoint split (sep : ascii) (s : string) : list string :=
  match s with
  | EmptyString => [EmptyString]
  | String c s' =>
      if Ascii.eqb c sep then EmptyString :: split sep s'
      else match split sep s' with
           | field :: fields => String c field :: fields
           | [] => [String c EmptyString]
           end
  end.

Definition lower_ascii (c : ascii) : ascii :=
  let n := nat_of_ascii c in
  if ((65 <=? n)%nat && (n <=? 90)%nat)%bool then ascii_of_nat (n + 32) else c.

(** [s.lower()] on ASCII text. *)
Fixpoint lower (s : string) : string :=
  match s with
  | EmptyString => EmptyString
  | String c s' => String (lower_ascii c) (lower s')
  end.

(** [s.endswith(suffix)]: some tail of [s] is [suffix]. *)
Fixpoint endswith (s suffix : string) : bool :=
  (String.eqb s suffix ||
   match s with
   | EmptyString => false
   | String _ s' => endswith s' suffix
   end)%bool.

(** [s.replace(c, '')] for a one-character [c]: every [c] is dropped. *)
Fixpoint remove_char (c : ascii) (s : string) : string :=
  match s with
  | EmptyString => EmptyString
  | String d s' =>
      if Ascii.eqb d c then remove_char c s' else String d (remove_char c s')
  end.

(** [str(n)] for a non-negative [int]. *)
Definition str_of_nat (n : nat) : string :=
  NilZero.string_of_uint (Nat.to_uint n).

(** [l[i]] on a list: [IndexError] out of range. *)
Definition getitem {A} (l : list A) (i : nat) : res A :=
  match l !! i with
  | Some a => Ok a
  | None => Raise IndexError
  end.

(** [sep.join(fields)], to speak about file names made of fields. *)
Fixpoint join (sep : ascii) (fields : list string) : string :=
  match fields with
  | [] => EmptyString
  | [field] => field
  | field :: rest => field +:+ String sep (join sep rest)
  end.

Fixpoint contains (c : ascii) (s : string) : bool :=
  match s with
  | EmptyString => false
  | String d s' => (Ascii.eqb d c || contains c s')%bool
  end.

End PyStr.

(** ** The part of [zipfile] the handler uses

    An archive file is the sequence of its members in central-directory
    order, each with the name, date and time, compression method, external
    attributes and general-purpose flags of its header, with its decoded
    content and with whether the stored CRC-32 is the CRC-32 of that content.
    [ZipFile(path, 'r')] builds one [ZipInfo] object per member ([filelist])
    and the dict [NameToInfo] from member names to those objects; a later
    member of the same name overwrites the dict entry of an earlier one.  The
    handler assigns to [curZipInfo.filename], and [writestr] assigns
    [flag_bits], [external_attr], [header_offset] and [file_size] of the
    object it is given: the objects are shared between [filelist],
    [NameToInfo] and the loop variable, so [NameToInfo] holds references
    (positions in [filelist]) and the loop writes the changed object back to
    [filelist].

    A string stands for the bytes of a name in UTF-8, so its length is the
    length [struct.pack] is given for the name. *)

Module Zip.

Definition DateTime : Type := Z * Z * Z * Z * Z * Z.

(** A member as it sits in the file: header fields and decoded content. *)
Record Member := mkMember {
  m_name : string;
  m_date_time : DateTime;
  m_compress_type : Z;
  m_external_attr : Z;       (* permission bits live in the high 16 bits *)
  m_data : list byte;
  m_flag_bits : Z;           (* general-purpose bit flags *)
  m_crc_ok : bool            (* the stored CRC-32 fits the content *)
}.

Abbreviation Archive := (list Member).

Record ZipInfo := mkZipInfo {
  filename : string;
  orig_filename : string;
  date_time : DateTime;
  compress_type : Z;
  external_attr : Z;
  header_offset : nat;       (* position of the member in its file *)
  file_size : nat;
  flag_bits : Z
}.

Definition set_filename (z : ZipInfo) (name : string) : ZipInfo :=
  mkZipInfo name (orig_filename z) (date_time z) (compress_type z)
            (external_attr z) (header_offset z) (file_size z) (flag_bits z).

(** A [ZipFile] opened with mode ['r']. *)
Record ZipFileR := mkZipFileR {
  r_file : Archive;
  filelist : list ZipInfo;
  NameToInfo : gmap string nat
}.

(** A [ZipFile] opened with mode ['w']: the members written so far. *)
Record ZipFileW := mkZipFileW {
  w_file : Archive
}.

(** [ZipInfo.__init__]: the file name ends at the first null byte. *)
Fixpoint before_nul (s : string) : string :=
  match s with
  | EmptyString => EmptyString
  | String c s' =>
      if Ascii.eqb c Ascii.zero then EmptyString else String c (before_nul s')
  end.

(** The name [infolist()] reports for a member. *)
Definition entry_name (m : Member) : string := before_nul (m_name m).

Definition zinfo_of_member (offset : nat) (m : Member) : ZipInfo :=
  mkZipInfo (entry_name m) (m_name m) (m_date_time m) (m_compress_type m)
            (m_external_attr m) offset (length (m_data m)) (m_flag_bits m).

(** [_RealGetContents]: [self.NameToInfo[x.filename] = x] for each member
    in turn. *)
Fixpoint index_names (i : nat) (a : Archive) (d : gmap string nat)
  : gmap string nat :=
  match a with
  | [] => d
  | m :: a' => index_names (S i) a' (<[entry_name m := i]> d)
  end.

Definition open_read (a : Archive) : ZipFileR :=
  mkZipFileR a (imap zinfo_of_member a) (index_names 0 a ∅).

Definition open_write : ZipFileW := mkZipFileW [].

(** [_check_compression]: stored, deflated, bzip2 and lzma. *)
Definition supported (compress_type : Z) : bool :=
  bool_decide (compress_type ∈ [0; 8; 12; 14]%Z).

(** [ZipFile.open(zinfo)] and [ZipExtFile.read()] on the member [m] found at
    [zinfo.header_offset], without a password: flag bits 5 and 6, the name
    in the member's header against [orig_filename], flag bit 0, the
    compression method, and the CRC-32 at the end of the content. *)
Definition extract (zinfo : ZipInfo) (m : Member) : res (list byte) :=
  if Z.testbit (flag_bits zinfo) 5 then Raise NotImplementedError
  else if Z.testbit (flag_bits zinfo) 6 then Raise NotImplementedError
  else if decide (m_name m = orig_filename zinfo) then
    if Z.testbit (flag_bits zinfo) 0 then Raise RuntimeError
    else if supported (compress_type zinfo) then
      if m_crc_ok m then Ok (m_data m) else Raise BadZipFile
    else Raise NotImplementedError
  else Raise BadZipFile.

(** [ZipFile.read(name)]: [getinfo(name)] through [NameToInfo], then the
    member at the object's [header_offset]. *)
Definition read (zf : ZipFileR) (name : string) : res (list byte) :=
  match NameToInfo zf !! name with
  | None => Raise (KeyError name)
  | Some ref =>
      match filelist zf !! ref with
      | None => Raise (KeyError name)
      | Some zinfo =>
          match r_file zf !! header_offset zinfo with
          | None => Raise BadZipFile
          | Some m => extract zinfo m
          end
      end
  end.

(** [_open_to_write]:
    [if not zinfo.external_attr: zinfo.external_attr = 0o600 << 16]. *)
Definition default_attr : Z := Z.shiftl 384 16.

Definition attr_to_write (external_attr : Z) : Z :=
  if decide (external_attr = 0%Z) then default_attr else external_attr.

Definition is_ascii (s : string) : bool :=
  forallb (fun c => (nat_of_ascii c <? 128)%nat) (list_ascii_of_string s).

(** [_open_to_write] starts [flag_bits] again from 0 and sets bit 1 for
    lzma. *)
Definition flags_to_write (compress_type : Z) : Z :=
  if decide (compress_type = 14%Z) then 2%Z else 0%Z.

(** [struct.pack] takes the length of the name as an unsigned 16-bit
    number. *)
Definition name_fits (name : string) : bool :=
  (Z.of_nat (String.length name) <=? 65535)%Z.

(** [_encodeFilenameFlags]: bit 11 goes into the header of a name that is
    not ASCII. *)
Definition flags_in_header (flag_bits : Z) (name : string) : Z :=
  if is_ascii name then flag_bits else Z.lor flag_bits 2048.

(** [ZipFile.writestr(zinfo, data)] with a [ZipInfo] first argument: the
    object gets [file_size], then [_open_to_write] resets its flags, gives it
    the default attributes if it has none and the new [header_offset];
    [_writecheck] raises [NotImplementedError] for a compression method
    zipfile does not have; [FileHeader] packs the length of the name into 16
    bits and raises [struct.error] when it does not fit.  The member is
    written under [zinfo.filename] with the object's date, compression
    method and attributes. *)
Definition writestr (zf : ZipFileW) (zinfo : ZipInfo) (data : list byte)
  : res (ZipInfo * ZipFileW) :=
  let zinfo' :=
    mkZipInfo (filename zinfo) (orig_filename zinfo) (date_time zinfo)
              (compress_type zinfo) (attr_to_write (external_attr zinfo))
              (length (w_file zf)) (length data)
              (flags_to_write (compress_type zinfo)) in
  if supported (compress_type zinfo') then
    if name_fits (filename zinfo') then
      let m :=
        mkMember (filename zinfo') (date_time zinfo') (compress_type zinfo')
                 (external_attr zinfo') data
                 (flags_in_header (flag_bits zinfo') (filename zinfo')) true in
      Ok (zinfo', mkZipFileW (w_file zf ++ [m]))
    else Raise StructError
  else Raise NotImplementedError.

(** One turn of the loop at lines 177-183, for the [i]-th object of
    [InZipFile.infolist()]. *)
Definition relocate_entry (ExtendedPythonModulePathName : string)
    (i : nat) (st : ZipFileR * ZipFileW) : res (ZipFileR * ZipFileW) :=
  let '(InZipFile, OutZipFile) := st in
  match filelist InZipFile !! i with
  | None => Ok st
  | Some curZipInfo =>
      let CurrentFileName := filename curZipInfo in
      DataBuffer ← read InZipFile CurrentFileName;
      let NewFileName :=
        ExtendedPythonModulePathName +:+ "/" +:+ CurrentFileName in
      let curZipInfo := set_filename curZipInfo NewFileName in
      '(curZipInfo, OutZipFile) ← writestr OutZipFile curZipInfo DataBuffer;
      Ok (mkZipFileR (r_file InZipFile)
                     (<[i := curZipInfo]> (filelist InZipFile))
                     (NameToInfo InZipFile),
          OutZipFile)
  end.

Fixpoint relocate_loop (prefix : string) (indices : list nat)
    (st : ZipFileR * ZipFileW) : res (ZipFileR * ZipFileW) :=
  match indices with
  | [] => Ok st
  | i :: rest =>
      st ← relocate_entry prefix i st;
      relocate_loop prefix rest st
  end.

(** Lines 175-192 on the archive level: open both files, run the loop,
    close; the result is what [OutZipFile.close()] leaves in the new file. *)
Definition relocate (prefix : string) (source : Archive) : res Archive :=
  let InZipFile := open_read source in
  let OutZipFile := open_write in
  st ← relocate_loop prefix (seq 0 (length (filelist InZipFile)))
                     (InZipFile, OutZipFile);
  Ok (w_file st.2).

(** *** What the loop comes to, as a function of the source archive *)

(** Position of the last member that goes by [name]: the entry that
    [NameToInfo] ends up with. *)
Fixpoint last_index (name : string) (a : Archive) : option nat :=
  match a with
  | [] => None
  | m :: a' =>
      match last_index name a' with
      | Some j => Some (S j)
      | None => if decide (entry_name m = name) then Some 0 else None
      end
  end.

(** What [InZipFile.read(name)] does on a freshly opened file. *)
Definition read_by_name (a : Archive) (name : string) : res (list byte) :=
  match last_index name a with
  | Some j =>
      match a !! j with
      | Some m => extract (zinfo_of_member j m) m
      | None => Raise (KeyError name)
      end
  | None => Raise (KeyError name)
  end.

(** The content [InZipFile.read(name)] returns on a freshly opened file,
    when it returns. *)
Definition content_by_name (a : Archive) (name : string) : list byte :=
  match last_index name a with
  | Some j => default [] (m_data <$> a !! j)
  | None => []
  end.

(** The member the loop writes for the source member [m], when the turn for
    [m] goes through. *)
Definition relocated (prefix : string) (source : Archive) (m : Member)
  : Member :=
  mkMember (prefix +:+ "/" +:+ entry_name m) (m_date_time m)
           (m_compress_type m) (attr_to_write (m_external_attr m))
           (content_by_name source (entry_name m))
           (flags_in_header (flags_to_write (m_compress_type m))
                            (prefix +:+ "/" +:+ entry_name m))
           true.

(** The turn of the loop for the source member [m], as a function of the
    source archive. *)
Definition relocate_member (prefix : string) (source : Archive) (m : Member)
  : res Member :=
  _ ← read_by_name source (entry_name m);
  if supported (m_compress_type m) then
    if name_fits (prefix +:+ "/" +:+ entry_name m)
    then Ok (relocated prefix source m)
    else Raise StructError
  else Raise NotImplementedError.

End Zip.

(** ** The file system calls the handler makes

    The file system is the ordered list of its nodes, keyed by the path from
    the root; the order of the list is the order in which [os.listdir]
    reports the names of a directory.  A file holds either bytes that are
    not a zip archive or the bytes of the archive with the given members.

    Path strings are read as the kernel reads them, from the root (the
    handler builds absolute paths only).  A null byte, the empty string and
    a string of [PATH_MAX] bytes or more are refused before anything is
    looked up.  Then the components are walked from left to right: empty
    components and [.] are skipped, [..] goes back to the parent, and every
    other component but the last has to name a directory and to fit
    [NAME_MAX].  There are no symbolic links and no permissions. *)

Module Os.

Inductive FileData :=
| RawData (b : list byte)
| ZipData (a : Zip.Archive).

Inductive Node :=
| File (d : FileData)
| Dir.

Abbreviation Path := (list string).
Abbreviation FS := (list (Path * Node)).

Definition NAME_MAX : nat := 255.
Definition PATH_MAX : nat := 4096.

(** What is refused before anything is looked up: [ValueError] from Python
    for a null byte, [ENOENT] for the empty string, [ENAMETOOLONG] for a
    string that does not fit [PATH_MAX] with its final null byte. *)
Definition path_error (s : string) : option PyExn :=
  if PyStr.contains Ascii.zero s then Some ValueError
  else if decide (s = EmptyString) then Some FileNotFoundError
  else if (PATH_MAX <=? String.length s)%nat then Some (OSError 36)
  else None.

(** The components of a path string that are not empty. *)
Definition names (s : string) : list string :=
  filter (fun c => c <> EmptyString) (PyStr.split "/" s).

(** One component further from the directory [cur]; the parent of the root
    is the root. *)
Definition step (cur : Path) (c : string) : Path :=
  if decide (c = ".") then cur
  else if decide (c = "..") then removelast cur
  else cur ++ [c].

(** The place a path string names. *)
Definition resolve (s : string) : Path := foldl step [] (names s).

(** The last component is an ordinary name, not [.] or [..]. *)
Definition ends_in_name (s : string) : bool :=
  match last (names s) with
  | Some c => bool_decide (c <> "." /\ c <> "..")
  | None => false
  end.

Definition ends_in_dot (s : string) : bool :=
  bool_decide (last (names s) = Some ".").

Definition ends_in_dotdot (s : string) : bool :=
  bool_decide (last (names s) = Some "..").

Definition ends_in_slash (s : string) : bool :=
  bool_decide (last (PyStr.split "/" s) = Some EmptyString).

Fixpoint find_node (fs : FS) (p : Path) : option Node :=
  match fs with
  | [] => None
  | (q, n) :: fs' => if decide (q = p) then Some n else find_node fs' p
  end.

(** The root is always a directory. *)
Definition node_at (fs : FS) (p : Path) : option Node :=
  match p with
  | [] => Some Dir
  | _ => find_node fs p
  end.

Definition parent (p : Path) : Path := removelast p.

Fixpoint strip_prefix (p q : Path) : option Path :=
  match p, q with
  | [], _ => Some q
  | c :: p', d :: q' => if decide (c = d) then strip_prefix p' q' else None
  | _ :: _, [] => None
  end.

(** [q] lies strictly below [p]. *)
Definition is_below (p q : Path) : bool :=
  match strip_prefix p q with
  | Some (_ :: _) => true
  | _ => false
  end.

Definition child_name (p q : Path) : option string :=
  match strip_prefix p q with
  | Some [name] => Some name
  | _ => None
  end.

Definition is_file (n : Node) : bool :=
  match n with
  | File _ => true
  | Dir => false
  end.

(** Walking from the directory [cur] through the components [comps], each
    of which has to lead to a directory: the error of the first component
    that stops the walk. *)
Fixpoint walk (fs : FS) (cur : Path) (comps : list string) : option PyExn :=
  match comps with
  | [] => None
  | c :: rest =>
      if decide (c = "." \/ c = "..") then walk fs (step cur c) rest
      else if (NAME_MAX <? String.length c)%nat then Some (OSError 36)
      else match node_at fs (cur ++ [c]) with
           | Some Dir => walk fs (cur ++ [c]) rest
           | Some (File _) => Some NotADirectoryError
           | None => Some FileNotFoundError
           end
  end.

(** The walk to the place a path string names: through every component
    but a last ordinary name. *)
Definition walk_error (s : string) (fs : FS) : option PyExn :=
  walk fs [] (if ends_in_name s then removelast (names s) else names s).

Definition last_name (s : string) : string :=
  default EmptyString (last (names s)).

(** The error for a last name that is not there. *)
Definition absent_error (s : string) : PyExn :=
  if (NAME_MAX <? String.length (last_name s))%nat then OSError 36
  else FileNotFoundError.

(** What a path string names ([os.stat]); a final slash asks for a
    directory. *)
Definition lookup (s : string) (fs : FS) : res Node :=
  match path_error s with
  | Some e => Raise e
  | None =>
      match walk_error s fs with
      | Some e => Raise e
      | None =>
          match node_at fs (resolve s) with
          | Some (File d) =>
              if ends_in_slash s then Raise NotADirectoryError
              else Ok (File d)
          | Some Dir => Ok Dir
          | None => Raise (absent_error s)
          end
      end
  end.

Definition unlink (p : Path) (fs : FS) : FS :=
  filter (fun e : Path * Node => e.1 <> p) fs.

(** A new node under the last name of [s], where nothing is yet. *)
Definition create (s : string) (n : Node) (fs : FS) : res FS :=
  if ends_in_name s then
    if (NAME_MAX <? String.length (last_name s))%nat then Raise (OSError 36)
    else Ok (fs ++ [(resolve s, n)])
  else Raise FileNotFoundError.

(** New content for the file at [p], in place. *)
Definition overwrite (p : Path) (d : FileData) (fs : FS) : FS :=
  (fun e : Path * Node =>
     if decide (e.1 = p) then (p, if is_file e.2 then File d else e.2)
     else e) <$> fs.

(** [os.mkdir(path)] *)
Definition mkdir (path : string) (fs : FS) : res FS :=
  match path_error path with
  | Some e => Raise e
  | None =>
      match walk_error path fs with
      | Some e => Raise e
      | None =>
          match node_at fs (resolve path) with
          | Some _ => Raise FileExistsError
          | None => create path Dir fs
          end
      end
  end.

(** Lines 80-82 and 89-91:
    [for root, dirs, files in os.walk(top): for file in files:
       os.remove(os.path.join(root, file))].
    Every file below [top] goes, the directories stay; [os.walk] yields
    nothing when [top] cannot be listed, and raises for a null byte. *)
Definition walk_remove_files (top : string) (fs : FS) : res FS :=
  match lookup top fs with
  | Ok Dir =>
      Ok (filter (fun e : Path * Node =>
                    ~ (is_below (resolve top) e.1 && is_file e.2)) fs)
  | Ok (File _) => Ok fs
  | Raise ValueError => Raise ValueError
  | Raise _ => Ok fs
  end.

(** [os.listdir(path)] *)
Definition listdir (path : string) (fs : FS) : res (list string) :=
  n ← lookup path fs;
  match n with
  | Dir =>
      Ok (omap (fun e : Path * Node => child_name (resolve path) e.1) fs)
  | File _ => Raise NotADirectoryError
  end.

(** [os.remove(path)] *)
Definition remove (path : string) (fs : FS) : res FS :=
  n ← lookup path fs;
  match n with
  | File _ => Ok (unlink (resolve path) fs)
  | Dir => Raise IsADirectoryError
  end.

(** [os.rmdir(path)]: only an empty directory can go, never the root and
    never under the name [.] or [..]. *)
Definition rmdir (path : string) (fs : FS) : res FS :=
  n ← lookup path fs;
  match n with
  | Dir =>
      let p := resolve path in
      if ends_in_dot path then Raise (OSError 22)
      else if ends_in_dotdot path then Raise (OSError 39)
      else if decide (p = []) then Raise (OSError 16)
      else if bool_decide (Exists (fun e : Path * Node => is_below p e.1) fs)
      then Raise (OSError 39)
      else Ok (unlink p fs)
  | File _ => Raise NotADirectoryError
  end.

(** [shutil.rmtree(path)].  Under the name [.] or [..] and on the root the
    last [os.rmdir] raises after the directory has been emptied; the
    handler passes the constant [TmpPipCacheFolder], and only the exception
    of those cases is kept here. *)
Definition rmtree (path : string) (fs : FS) : res FS :=
  n ← lookup path fs;
  match n with
  | Dir =>
      let p := resolve path in
      if ends_in_dot path then Raise (OSError 22)
      else if ends_in_dotdot path then Raise FileNotFoundError
      else if decide (p = []) then Raise (OSError 16)
      else Ok (filter (fun e : Path * Node => ~ is_below p e.1) (unlink p fs))
  | File _ => Raise NotADirectoryError
  end.

(** [open(path, 'rb').read()] *)
Definition read_file (path : string) (fs : FS) : res FileData :=
  n ← lookup path fs;
  match n with
  | File d => Ok d
  | Dir => Raise IsADirectoryError
  end.

(** [open(path, 'w+b')]: the file is created, or emptied if it is there. *)
Definition open_truncate (path : string) (fs : FS) : res FS :=
  match path_error path with
  | Some e => Raise e
  | None =>
      match walk_error path fs with
      | Some e => Raise e
      | None =>
          if ends_in_slash path then Raise IsADirectoryError
          else
            match node_at fs (resolve path) with
            | Some (File _) => Ok (overwrite (resolve path) (RawData []) fs)
            | Some Dir => Raise IsADirectoryError
            | None => create path (File (RawData [])) fs
            end
      end
  end.

(** [zipfile.ZipFile(path, 'r')] *)
Definition ZipFile_r (path : string) (fs : FS) : res Zip.ZipFileR :=
  d ← read_file path fs;
  match d with
  | ZipData a => Ok (Zip.open_read a)
  | RawData _ => Raise BadZipFile
  end.

(** [zipfile.ZipFile(path, 'w')] *)
Definition ZipFile_w (path : string) (fs : FS) : res (Zip.ZipFileW * FS) :=
  fs' ← open_truncate path fs;
  Ok (Zip.open_write, fs').

(** [OutZipFile.close()]: the members written so far become the content
    of the file that was opened; a file unlinked in between stays gone. *)
Definition ZipFile_close (path : string) (zf : Zip.ZipFileW) (fs : FS) : FS :=
  overwrite (resolve path) (ZipData (Zip.w_file zf)) fs.

End Os.

(** ** The handler *)

(** The dict [lambda_handler] returns. *)
Record Response := mkResponse {
  StatusCode : Z;
  FunctionError : option string;
  Payload : string
}.

(** What [subprocess.run(..., capture_output=True)] gives back;
    [stderr_str] is [str(output.stderr)]. *)
Record CompletedProcess := mkCompletedProcess {
  returncode : Z;
  stdout : list byte;
  stderr_str : string
}.

(** The keyword arguments of [publish_layer_version]. *)
Record PublishCall := mkPublishCall {
  LayerName : string;
  Description : string;
  Content : Os.FileData;
  CompatibleRuntimes : list string;
  LicenseInfo : string
}.

(** The collaborators.  pip runs on the file system and leaves it changed;
    boto3 answers [None] when the call goes through and [Some text] when it
    raises an exception [e] with [str(e) = text]. *)
Record Env := mkEnv {
  pip_download :
    string -> string -> string -> Os.FS -> CompletedProcess * Os.FS;
  version_info : nat * nat;
  now_isoformat : string;
  boto3_client : option string;
  publish_layer_version : PublishCall -> option string
}.

Record World := mkWorld {
  fs : Os.FS;
  published : list PublishCall
}.

Definition set_fs (w : World) (fs' : Os.FS) : World :=
  mkWorld fs' (published w).

(** A statement ends normally with a value, or with [return], or with an
    exception nobody caught. *)
Inductive outcome (A : Type) :=
| Val (a : A)
| Return (r : Response)
| Exc (e : PyExn).
Arguments Val {A} a.
Arguments Return {A} r.
Arguments Exc {A} e.

Definition M (A : Type) : Type := World -> outcome A * World.

#[global] Instance M_ret : MRet M := fun A a w => (Val a, w).
#[global] Instance M_bind : MBind M := fun A B k m w =>
  match m w with
  | (Val a, w') => k a w'
  | (Return r, w') => (Return r, w')
  | (Exc e, w') => (Exc e, w')
  end.

Definition return_ {A} (r : Response) : M A := fun w => (Return r, w).

(** A file system call that only reads. *)
Definition ask {A} (f : Os.FS -> res A) : M A := fun w =>
  match f (fs w) with
  | Ok a => (Val a, w)
  | Raise e => (Exc e, w)
  end.

(** A file system call that changes the file system. *)
Definition change (f : Os.FS -> res Os.FS) : M unit := fun w =>
  match f (fs w) with
  | Ok fs' => (Val tt, set_fs w fs')
  | Raise e => (Exc e, w)
  end.

Definition pure_res {A} (r : res A) : M A := ask (fun _ => r).

Inductive Result :=
| Returned (r : Response)
| Raised (e : PyExn).

Definition NotFound (payload : string) : Response :=
  mkResponse 404 (Some "ResourceNotFoundException") payload.

(** Lines 42-52.  [str(e)] of the [KeyError] is the quoted key. *)
Definition get_ModuleName (event : gmap string string) : M string :=
  match event !! "ModuleName" with
  | Some ModuleName => mret ModuleName
  | None =>
      return_ (NotFound
        ("No argument for ModuleName was provided in the context name: "
         +:+ "\nError: " +:+ "'ModuleName'"))
  end.

(** Lines 54-60. *)
Definition get_CustomLayerName (event : gmap string string) : M string :=
  match event !! "CustomLayerName" with
  | Some CustomLayerName => mret CustomLayerName
  | None => mret EmptyString
  end.

(** Lines 72-82, and again lines 85-91. *)
Definition make_folder (FolderName : string) : M unit := fun w =>
  match Os.mkdir FolderName (fs w) with
  | Ok fs' => (Val tt, set_fs w fs')
  | Raise FileExistsError =>
      match Os.walk_remove_files FolderName (fs w) with
      | Ok fs' => (Val tt, set_fs w fs')
      | Raise e => (Exc e, w)
      end
  | Raise e => (Exc e, w)
  end.

Definition TmpModuleFolder (ModuleName : string) : string :=
  "/tmp/LayerModule_" +:+ ModuleName.

Definition TmpPipCacheFolder : string := "/tmp/pipcachedir/".

(** Lines 103-116. *)
Definition run_pip (env : Env) (ModuleName : string) : M unit := fun w =>
  let '(output, fs') :=
    pip_download env ModuleName (TmpModuleFolder ModuleName)
                 TmpPipCacheFolder (fs w) in
  if decide (returncode output = 0%Z) then (Val tt, set_fs w fs')
  else
    (Return (NotFound ("pip was not able to find a module for " +:+ ModuleName
                       +:+ "\nError:" +:+ stderr_str output)),
     set_fs w fs').

Definition is_wheel_name (file : string) : bool :=
  PyStr.endswith (PyStr.lower file) ".whl".

(** Lines 119-125: the loop with its [break]. *)
Fixpoint first_wheel (files : list string) : string :=
  match files with
  | [] => EmptyString
  | file :: rest => if is_wheel_name file then file else first_wheel rest
  end.

(** Lines 119-135. *)
Definition find_wheel (ModuleName : string) : M string :=
  files ← ask (Os.listdir (TmpModuleFolder ModuleName));
  let WheelFileName := first_wheel files in
  if decide (WheelFileName = EmptyString) then
    return_ (NotFound
      ("pip was not able to download a wheel file for " +:+ ModuleName))
  else mret WheelFileName.

(** Lines 144-146. *)
Definition module_version (WheelFileName : string) : res string :=
  let SplitFileName := PyStr.split "-" WheelFileName in
  PyStr.getitem SplitFileName 1.

(** Lines 150-151. *)
Definition PythonVersionDot (env : Env) : string :=
  PyStr.str_of_nat (version_info env).1 +:+ "." +:+
  PyStr.str_of_nat (version_info env).2.

Definition PythonVersionNoDot (env : Env) : string :=
  PyStr.str_of_nat (version_info env).1 +:+
  PyStr.str_of_nat (version_info env).2.

(** Line 158. *)
Definition ExtendedPythonModulePathName (env : Env) : string :=
  "/python/lib/python" +:+ PythonVersionDot env +:+ "/site-packages".

(** Lines 162-165. *)
Definition NewZipFolderFileName (env : Env) (ModuleName ModuleVersion : string)
  : string :=
  let DateTimeString := now_isoformat env in
  let NewZipFileName :=
    ModuleName +:+ "_layer_ver_" +:+ ModuleVersion +:+ "_" +:+ DateTimeString
    +:+ ".zip" in
  TmpModuleFolder ModuleName +:+ "/" +:+ NewZipFileName.

(** Line 169. *)
Definition WheelFolderFileName (ModuleName WheelFileName : string) : string :=
  TmpModuleFolder ModuleName +:+ "/" +:+ WheelFileName.

(** Lines 175-195: the wheel is copied member by member into the new zip,
    the wheel and pip's cache are removed. *)
Definition build_zip (env : Env) (ModuleName WheelFileName ModuleVersion : string)
  : M unit :=
  let NewZip := NewZipFolderFileName env ModuleName ModuleVersion in
  let Wheel := WheelFolderFileName ModuleName WheelFileName in
  InZipFile ← ask (Os.ZipFile_r Wheel);
  OutZipFile ← (fun w =>
    match Os.ZipFile_w NewZip (fs w) with
    | Ok (zf, fs') => (Val zf, set_fs w fs')
    | Raise e => (Exc e, w)
    end);
  st ← pure_res
    (Zip.relocate_loop (ExtendedPythonModulePathName env)
       (seq 0 (length (Zip.filelist InZipFile))) (InZipFile, OutZipFile));
  let OutZipFile := st.2 in
  change (Os.remove Wheel);;
  change (fun fs => Ok (Os.ZipFile_close NewZip OutZipFile fs));;
  change (Os.rmtree TmpPipCacheFolder).

(** Lines 201-207. *)
Definition new_layer_name (env : Env)
    (ModuleName ModuleVersion CustomLayerName : string) : string :=
  if decide (CustomLayerName = EmptyString) then
    ModuleName +:+ "_" +:+ PyStr.remove_char "." ModuleVersion +:+ "_py"
    +:+ PythonVersionNoDot env
  else CustomLayerName.

Definition publish_call (env : Env) (NewLayerName : string)
    (WheelContent : Os.FileData) : PublishCall :=
  mkPublishCall NewLayerName
    "Layer generated by Lambda function python-add-module-as-layer"
    WheelContent ["python" +:+ PythonVersionDot env] EmptyString.

(** Lines 209-212, the body of the [try]: the exception text, if any. *)
Definition try_publish (env : Env) (call : PublishCall) (w : World)
  : option string * World :=
  match boto3_client env with
  | Some text => (Some text, w)
  | None =>
      (publish_layer_version env call,
       mkWorld (fs w) (published w ++ [call]))
  end.

(** Lines 67-91. *)
Definition make_folders (ModuleName : string) : M unit :=
  make_folder (TmpModuleFolder ModuleName);;
  make_folder TmpPipCacheFolder.

(** Lines 42-135: the module name, the custom layer name and the name of
    the wheel file pip left in the download folder. *)
Definition download (env : Env) (event : gmap string string)
  : M (string * string * string) :=
  ModuleName ← get_ModuleName event;
  CustomLayerName ← get_CustomLayerName event;
  make_folders ModuleName;;
  run_pip env ModuleName;;
  WheelFileName ← find_wheel ModuleName;
  mret (ModuleName, CustomLayerName, WheelFileName).

(** Everything the handler has in hand when it reaches the [try]. *)
Record Prepared := mkPrepared {
  p_ModuleName : string;
  p_CustomLayerName : string;
  p_WheelFileName : string;
  p_ModuleVersion : string;
  p_WheelContent : Os.FileData
}.

(** Lines 42-199. *)
Definition prepare (env : Env) (event : gmap string string) : M Prepared :=
  '(ModuleName, CustomLayerName, WheelFileName) ← download env event;
  ModuleVersion ← pure_res (module_version WheelFileName);
  build_zip env ModuleName WheelFileName ModuleVersion;;
  WheelContent ←
    ask (Os.read_file (NewZipFolderFileName env ModuleName ModuleVersion));
  mret (mkPrepared ModuleName CustomLayerName WheelFileName ModuleVersion
                   WheelContent).

(** Lines 201-230. *)
Definition publish (env : Env) (p : Prepared) : M Response :=
  let NewLayerName :=
    new_layer_name env (p_ModuleName p) (p_ModuleVersion p)
                   (p_CustomLayerName p) in
  fun w =>
    match try_publish env (publish_call env NewLayerName (p_WheelContent p)) w
    with
    | (Some text, w') =>
        (Return (mkResponse 500 (Some "ServiceException")
           ("There was a problem when calling the Python boto3 publish_layer_version function: "
            +:+ text)), w')
    | (None, w') =>
        (change (Os.remove (NewZipFolderFileName env (p_ModuleName p)
                                                 (p_ModuleVersion p)));;
         change (Os.rmdir (TmpModuleFolder (p_ModuleName p)));;
         mret (mkResponse 200 None
           ("New layer was succesfully created with the name "
            +:+ NewLayerName))) w'
    end.

Definition lambda_handler (env : Env) (event : gmap string string) (w : World)
  : Result * World :=
  match (p ← prepare env event; publish env p) w with
  | (Val r, w') => (Returned r, w')
  | (Return r, w') => (Returned r, w')
  | (Exc e, w') => (Raised e, w')
  end.

(** A step that leaves the record of publish calls alone. *)
Definition keeps_published {A} (m : M A) : Prop :=
  forall w, published (m w).2 = published w.

(** ** The properties the specification states, and sample runs *)

(** "For every entry e of S there is an entry whose name equals
    P + "/" + e.name and whose decoded content is byte-for-byte equal to
    e's content", together with the equal number of entries. *)
Definition copies_every_entry (prefix : string)
    (source result : list Zip.Member) : Prop :=
  length result = length source /\
  forall e, e ∈ source ->
    exists e', e' ∈ result /\
      Zip.m_name e' = prefix +:+ "/" +:+ Zip.m_name e /\
      Zip.m_data e' = Zip.m_data e.

(** Only the name differs between a source member and what was written
    for it. *)
Definition renamed_only (prefix : string) (m m' : Zip.Member) : Prop :=
  Zip.m_name m' = prefix +:+ "/" +:+ Zip.m_name m /\
  Zip.m_external_attr m' = Zip.m_external_attr m /\
  Zip.m_date_time m' = Zip.m_date_time m /\
  Zip.m_compress_type m' = Zip.m_compress_type m.

(** The same, but for members that come without attributes: those are
    written with the default [0o600 << 16].  The name of the source member
    is the name zipfile reports for it. *)
Definition renamed_as_written (prefix : string) (m m' : Zip.Member) : Prop :=
  Zip.m_name m' = prefix +:+ "/" +:+ Zip.entry_name m /\
  Zip.m_external_attr m' =
    (if decide (Zip.m_external_attr m = 0%Z) then Z.shiftl 384 16
     else Zip.m_external_attr m) /\
  Zip.m_date_time m' = Zip.m_date_time m /\
  Zip.m_compress_type m' = Zip.m_compress_type m.

(** Neither the relocated zip file nor the download folder is there. *)
Definition artifacts_deleted (env : Env) (p : Prepared) (w : World) : Prop :=
  Os.node_at (fs w)
    (Os.resolve (NewZipFolderFileName env (p_ModuleName p) (p_ModuleVersion p)))
  = None /\
  Os.node_at (fs w) (Os.resolve (TmpModuleFolder (p_ModuleName p))) = None.

(** The file name ends in [.whl], in any mix of upper and lower case. *)
Definition ends_in_whl (file : string) : Prop :=
  exists stem ext, file = stem +:+ ext /\ PyStr.lower ext = ".whl".

(** The handler answered, and the answer is the 404 of the not-found
    class. *)
Definition handled_not_found (result : Result) : Prop :=
  exists r, result = Returned r /\ StatusCode r = 404%Z /\
            FunctionError r = Some "ResourceNotFoundException".

Module Sample.

Definition stamp : Zip.DateTime := (2020, 5, 1, 12, 0, 0)%Z.

(** [0o100644 << 16]: a regular file, [rw-r--r--]. *)
Definition rw_r_r : Z := 2175008768.

Definition wheel : list Zip.Member :=
  [ Zip.mkMember "examplepkg/__init__.py" stamp 8 rw_r_r [x61; x3d; x31]
                 0 true;
    Zip.mkMember "examplepkg-1.2.3.dist-info/METADATA" stamp 0 rw_r_r [x4e]
                 0 true ].

(** A member whose external attributes are all zero, as archivers write
    that keep no Unix mode. *)
Definition wheel_without_mode : list Zip.Member :=
  [ Zip.mkMember "examplepkg/__init__.py" stamp 8 0 [x61; x3d; x31] 0 true ].

(** Two members under one name, with different content. *)
Definition wheel_same_name : list Zip.Member :=
  [ Zip.mkMember "examplepkg/data.txt" stamp 0 rw_r_r [x01] 0 true;
    Zip.mkMember "examplepkg/data.txt" stamp 0 rw_r_r [x02] 0 true ].

(** pip exits with 0 and leaves the given files in the download folder. *)
Definition pip_leaves (files : list (string * Os.FileData))
  : string -> string -> string -> Os.FS -> CompletedProcess * Os.FS :=
  fun ModuleName dest cache fs =>
    (mkCompletedProcess 0 [] "b''",
     fs ++ ((fun f : string * Os.FileData =>
               (Os.resolve dest ++ [f.1], Os.File f.2)) <$> files)).

(** pip exits with 1 and leaves nothing. *)
Definition pip_fails
  : string -> string -> string -> Os.FS -> CompletedProcess * Os.FS :=
  fun ModuleName dest cache fs =>
    (mkCompletedProcess 1 [] "b'ERROR: No matching distribution found'", fs).

Definition publish_ok : PublishCall -> option string := fun _ => None.

Definition publish_denied : PublishCall -> option string :=
  fun _ => Some "An error occurred (AccessDeniedException)".

(** Python 3.9. *)
Definition env
    (pip : string -> string -> string -> Os.FS -> CompletedProcess * Os.FS)
    (publisher : PublishCall -> option string) : Env :=
  mkEnv pip (3, 9) "2020-05-01T12:00:00" None publisher.

Definition pip_examplepkg :=
  pip_leaves [("examplepkg-1.2.3-py3-none-any.whl", Os.ZipData wheel)].

(** [/tmp] is there and empty, nothing has been published. *)
Definition tmp_only : World := mkWorld [(["tmp"], Os.Dir)] [].

Definition event_examplepkg : gmap string string :=
  {[ "ModuleName" := "examplepkg" ]}.

Definition prefix39 : string := "/python/lib/python3.9/site-packages".

(** A wheel file whose name has no hyphen. *)
Definition pip_no_hyphen :=
  pip_leaves [("examplepkg.whl", Os.ZipData wheel)].

(** Only a source tarball arrives. *)
Definition pip_sdist :=
  pip_leaves [("examplepkg-1.2.3.tar.gz", Os.RawData [x1f; x8b])].

(** A text file, then two wheels; the first wheel has an upper-case
    extension. *)
Definition pip_several :=
  pip_leaves [("README.txt", Os.RawData [x68; x69]);
              ("examplepkg-1.2.3-py3-none-any.WHL", Os.ZipData wheel);
              ("other-0.1-py3-none-any.whl", Os.ZipData wheel_same_name)].

Definition event_custom (name : string) : gmap string string :=
  <[ "CustomLayerName" := name ]> event_examplepkg.

Definition event_empty_name : gmap string string :=
  {[ "ModuleName" := EmptyString ]}.

End Sample.

(** *** More sample data *)

Module MoreSample.


(** A module name with a slash in it. *)
Definition event_slash : gmap string string :=
  {[ "ModuleName" := "pkgs/examplepkg" ]}.

(** A wheel with a member compressed by a method zipfile does not have
    (9, Deflate64). *)
Definition wheel_method9 : list Zip.Member :=
  [ Zip.mkMember "examplepkg/__init__.py" Sample.stamp 9 Sample.rw_r_r
                 [x61; x3d; x31] 0 true ].

Definition pip_method9 :=
  Sample.pip_leaves
    [("examplepkg-1.2.3-py3-none-any.whl", Os.ZipData wheel_method9)].

(** pip as it treats an empty requirement: it exits with 1 and leaves
    nothing; for any other name the wheel of [examplepkg] arrives. *)
Definition pip_checks_name
  : string -> string -> string -> Os.FS -> CompletedProcess * Os.FS :=
  fun ModuleName dest cache fs =>
    if decide (ModuleName = EmptyString)
    then Sample.pip_fails ModuleName dest cache fs
    else Sample.pip_examplepkg ModuleName dest cache fs.

End MoreSample.

(** The publish call of lines 211-212, as made from what [prepare] left. *)
Definition publish_call_of (env : Env) (p : Prepared) : PublishCall :=
  publish_call env
    (new_layer_name env (p_ModuleName p) (p_ModuleVersion p)
                    (p_CustomLayerName p))
    (p_WheelContent p).

(** What pip answers and leaves behind when it runs after the scratch
    folders were made (lines 103-105). *)
Definition pip_run (env : Env) (ModuleName : string) (w1 : World)
  : CompletedProcess * Os.FS :=
  pip_download env ModuleName (TmpModuleFolder ModuleName) TmpPipCacheFolder
               (fs w1).

Definition is_KeyError (e : PyExn) : Prop :=
  match e with
  | KeyError _ => True
  | _ => False
  end.

(** The exceptions the [except] clauses of lines 45, 57, 75 and 87 name. *)
Definition is_caught (e : PyExn) : Prop :=
  match e with
  | KeyError _ | FileExistsError => True
  | _ => False
  end.



(** One of the three not-found situations of lines 46-52, 107-116 and
    128-135. *)
Definition not_found_condition (env : Env) (event : gmap string string)
    (w : World) : Prop :=
  event !! "ModuleName" = None \/
  exists ModuleName w1,
    event !! "ModuleName" = Some ModuleName /\
    make_folders ModuleName w = (Val tt, w1) /\
    let run := pip_download env ModuleName (TmpModuleFolder ModuleName)
                            TmpPipCacheFolder (fs w1) in
    (returncode run.1 <> 0%Z \/
     exists files,
       Os.listdir (TmpModuleFolder ModuleName) run.2 = Ok files /\
       Forall (fun file => is_wheel_name file = false) files).

(** ** What the relocation loop computes *)

Module ZipFacts.
Import Zip.

Lemma index_names_lookup name a : forall i d,
  index_names i a d !! name =
    match last_index name a with
    | Some j => Some (i + j)
    | None => d !! name
    end.
Proof.
  induction a as [|m a IH]; intros i d; simpl; [done|].
  rewrite IH. destruct (last_index name a) as [j|].
  - f_equal. lia.
  - destruct (decide (entry_name m = name)) as [->|Hne].
    + rewrite lookup_insert_eq. f_equal. lia.
    + by rewrite lookup_insert_ne.
Qed.

Lemma last_index_member name a j :
  last_index name a = Some j ->
  exists m, a !! j = Some m /\ entry_name m = name.
Proof.
  revert j. induction a as [|m a IH]; intros j; simpl; [done|].
  destruct (last_index name a) as [k|] eqn:Hk.
  - intros [= <-]. destruct (IH k eq_refl) as (m' & ? & ?). by exists m'.
  - destruct (decide (entry_name m = name)); [|done].
    intros [= <-]. by exists m.
Qed.

Lemma last_index_ge a : forall i m,
  a !! i = Some m ->
  exists j, last_index (entry_name m) a = Some j /\ i <= j.
Proof.
  induction a as [|m0 a IH]; intros i m; [done|].
  destruct i as [|i]; simpl.
  - intros [= ->]. destruct (last_index (entry_name m) a) as [k|].
    + exists (S k). split; [done|lia].
    + rewrite decide_True; [|done]. by exists 0.
  - intros Hi. destruct (IH i m Hi) as (j & -> & ?).
    exists (S j). split; [done|lia].
Qed.

(** With pairwise distinct names the last member of a name is the only
    one. *)
Lemma last_index_NoDup a : forall i m,
  NoDup (entry_name <$> a) ->
  a !! i = Some m ->
  last_index (entry_name m) a = Some i.
Proof.
  induction a as [|m0 a IH]; intros i m Hnd Hi; [done|].
  apply NoDup_cons in Hnd as [Hnotin Hnd].
  destruct i as [|i]; simpl in *.
  - injection Hi as ->.
    destruct (last_index (entry_name m) a) as [k|] eqn:Hk.
    + exfalso. apply Hnotin.
      destruct (last_index_member _ _ _ Hk) as (m' & Hm' & <-).
      apply list_elem_of_fmap. exists m'. split; [done|].
      by eapply list_elem_of_lookup_2.
    + by rewrite decide_True.
  - by rewrite (IH i m Hnd Hi).
Qed.

Lemma content_by_name_NoDup a i m :
  NoDup (entry_name <$> a) ->
  a !! i = Some m ->
  content_by_name a (entry_name m) = m_data m.
Proof.
  intros Hnd Hi. unfold content_by_name.
  rewrite (last_index_NoDup a i m Hnd Hi), Hi. done.
Qed.

Lemma before_nul_id s :
  PyStr.contains Ascii.zero s = false -> before_nul s = s.
Proof.
  induction s as [|c s IH]; simpl; [done|].
  intros [Hc Hs]%orb_false_elim. rewrite Hc. by rewrite IH.
Qed.

Lemma before_nul_clean s : PyStr.contains Ascii.zero (before_nul s) = false.
Proof.
  induction s as [|c s IH]; simpl; [done|].
  destruct (Ascii.eqb c Ascii.zero) eqn:Hc; simpl; [done|]. by rewrite Hc.
Qed.

Lemma before_nul_idem s : before_nul (before_nul s) = before_nul s.
Proof. apply before_nul_id, before_nul_clean. Qed.

(** Behind text without a null byte the name ends where it ended. *)
Lemma before_nul_app a b :
  PyStr.contains Ascii.zero a = false ->
  before_nul (a +:+ "/" +:+ b) = a +:+ "/" +:+ before_nul b.
Proof.
  induction a as [|c a IH]; [done|].
  simpl. intros [Hc Ha]%orb_false_elim.
  change ((String c a) +:+ "/" +:+ b) with (String c (a +:+ "/" +:+ b)).
  change ((String c a) +:+ "/" +:+ before_nul b)
    with (String c (a +:+ "/" +:+ before_nul b)).
  simpl. rewrite Hc. by rewrite IH.
Qed.

Lemma extract_Ok_inv zinfo m data :
  extract zinfo m = Ok data -> data = m_data m.
Proof.
  unfold extract. repeat case_match; try done. by intros [= <-].
Qed.

Lemma extract_Raise zinfo m e :
  extract zinfo m = Raise e -> ~ is_caught e.
Proof.
  unfold extract. repeat case_match; try done;
    intros [= <-]; exact (fun H => H).
Qed.


(** When [read] returns, it returns the content of the last member of
    that name. *)
Lemma read_by_name_Ok a name data :
  read_by_name a name = Ok data -> data = content_by_name a name.
Proof.
  unfold read_by_name, content_by_name.
  destruct (last_index name a) as [j|]; [|done].
  destruct (a !! j) as [m|]; [|done]. simpl. apply extract_Ok_inv.
Qed.

(** A name that some member goes by is never missing. *)
Lemma read_by_name_Raise a m e :
  m ∈ a -> read_by_name a (entry_name m) = Raise e -> ~ is_caught e.
Proof.
  intros [i Hi]%list_elem_of_lookup_1. unfold read_by_name.
  destruct (last_index_ge a i m Hi) as (j & Hj & _). rewrite Hj.
  destruct (last_index_member _ _ _ Hj) as (mj & Hmj & _). rewrite Hmj.
  apply extract_Raise.
Qed.

(** [read] on an open file whose [ZipInfo] objects from position [i] on
    are still as [open_read] made them. *)
Lemma read_untouched source (fl : list ZipInfo) i m :
  (forall j, i <= j -> fl !! j = imap zinfo_of_member source !! j) ->
  source !! i = Some m ->
  read (mkZipFileR source fl (index_names 0 source ∅)) (entry_name m)
  = read_by_name source (entry_name m).
Proof.
  intros Hfl Hi. unfold read, read_by_name. simpl.
  rewrite index_names_lookup.
  destruct (last_index_ge source i m Hi) as (j & Hj & Hle).
  rewrite Hj. simpl.
  destruct (last_index_member _ _ _ Hj) as (mj & Hmj & Hname).
  rewrite (Hfl j Hle), list_lookup_imap, Hmj. simpl.
  by rewrite Hmj.
Qed.

Lemma relocate_member_Ok_inv prefix source m m' :
  relocate_member prefix source m = Ok m' ->
  m' = relocated prefix source m /\
  supported (m_compress_type m) = true /\
  name_fits (prefix +:+ "/" +:+ entry_name m) = true /\
  read_by_name source (entry_name m)
  = Ok (content_by_name source (entry_name m)).
Proof.
  unfold relocate_member.
  destruct (read_by_name source (entry_name m)) as [data|e] eqn:Hread;
    [|done]. simpl.
  destruct (supported (m_compress_type m)); [|done].
  destruct (name_fits _); [|done].
  intros [= <-]. by rewrite (read_by_name_Ok _ _ _ Hread).
Qed.

(** One turn of the loop, on an object the loop has not touched yet. *)
Lemma relocate_entry_fresh prefix source (fl : list ZipInfo) out i m :
  (forall j, i <= j -> fl !! j = imap zinfo_of_member source !! j) ->
  source !! i = Some m ->
  (forall m', relocate_member prefix source m = Ok m' ->
     exists zinfo,
       relocate_entry prefix i
         (mkZipFileR source fl (index_names 0 source ∅), mkZipFileW out)
       = Ok (mkZipFileR source (<[i := zinfo]> fl) (index_names 0 source ∅),
             mkZipFileW (out ++ [m']))) /\
  (forall e, relocate_member prefix source m = Raise e ->
     relocate_entry prefix i
       (mkZipFileR source fl (index_names 0 source ∅), mkZipFileW out)
     = Raise e).
Proof.
  intros Hrest Hm.
  assert (fl !! i = Some (zinfo_of_member i m)) as Hcur.
  { rewrite Hrest by lia. by rewrite list_lookup_imap, Hm. }
  unfold relocate_entry, relocate_member. simpl. rewrite Hcur. simpl.
  rewrite (read_untouched source fl i m Hrest Hm).
  destruct (read_by_name source (entry_name m)) as [data|e] eqn:Hread;
    simpl; [|split; [by intros ? [=]|by intros ? [= <-]]].
  unfold writestr. simpl.
  destruct (supported (m_compress_type m)); simpl;
    [|split; [by intros ? [=]|by intros ? [= <-]]].
  destruct (name_fits _); simpl;
    [|split; [by intros ? [=]|by intros ? [= <-]]].
  split; [|by intros ? [=]]. intros m' [= <-].
  eexists. unfold relocated. by rewrite (read_by_name_Ok _ _ _ Hread).
Qed.

Lemma mapM_cons {A B} (f : A -> res B) x l :
  mapM f (x :: l) = (y ← f x; k ← mapM f l; mret (y :: k)).
Proof. done. Qed.

(** The loop from position [i] on is the turn for each of the remaining
    members, one after the other, up to the first that raises. *)
Lemma relocate_loop_run prefix source : forall k i fl out,
  i + k = length source ->
  length fl = length source ->
  (forall j, i <= j -> fl !! j = imap zinfo_of_member source !! j) ->
  (forall rest,
     mapM (relocate_member prefix source) (drop i source) = Ok rest ->
     exists fl',
       relocate_loop prefix (seq i k)
         (mkZipFileR source fl (index_names 0 source ∅), mkZipFileW out)
       = Ok (mkZipFileR source fl' (index_names 0 source ∅),
             mkZipFileW (out ++ rest))) /\
  (forall e,
     mapM (relocate_member prefix source) (drop i source) = Raise e ->
     relocate_loop prefix (seq i k)
       (mkZipFileR source fl (index_names 0 source ∅), mkZipFileW out)
     = Raise e).
Proof.
  induction k as [|k IH]; intros i fl out Hlen Hfl Hrest.
  - rewrite drop_ge by lia. simpl. split; [|done].
    intros rest [= <-]. exists fl. by rewrite app_nil_r.
  - destruct (lookup_lt_is_Some_2 source i) as [m Hm]; [lia|].
    rewrite (drop_S _ _ _ Hm), mapM_cons.
    change (seq i (S k)) with (i :: seq (S i) k).
    destruct (relocate_entry_fresh prefix source fl out i m Hrest Hm)
      as [Hok Hraise].
    destruct (relocate_member prefix source m) as [m'|e0].
    + destruct (Hok m' eq_refl) as [zinfo Hentry].
      destruct (IH (S i) (<[i := zinfo]> fl) (out ++ [m'])) as [IHok IHraise].
      { lia. }
      { by rewrite length_insert. }
      { intros j Hj. rewrite list_lookup_insert_ne by lia. apply Hrest. lia. }
      destruct (mapM (relocate_member prefix source) (drop (S i) source))
        as [rest'|e'].
      * split; [|done]. intros rest [= <-].
        destruct (IHok rest' eq_refl) as [fl' Hloop]. exists fl'.
        cbn [relocate_loop]. rewrite Hentry. simpl.
        rewrite Hloop. by rewrite <- app_assoc.
      * split; [done|]. intros e [= <-].
        cbn [relocate_loop]. rewrite Hentry. simpl. by apply IHraise.
    + split; [done|]. intros e [= <-].
      cbn [relocate_loop]. by rewrite (Hraise e0 eq_refl).
Qed.

(** The loop is the turn for each member of the source in order, up to
    the first that raises; each turn reads what [read] finds under the
    member's name in the source as it was opened. *)
Lemma relocate_spec prefix source :
  relocate prefix source = mapM (relocate_member prefix source) source.
Proof.
  unfold relocate, open_read, open_write. simpl.
  destruct (relocate_loop_run prefix source (length source) 0
              (imap zinfo_of_member source) []) as [Hok Hraise];
    [done|by rewrite length_imap|done|].
  rewrite length_imap. rewrite drop_0 in Hok, Hraise. simpl in Hok.
  destruct (mapM (relocate_member prefix source) source) as [rest|e].
  - destruct (Hok rest eq_refl) as [fl' ->]. done.
  - by rewrite (Hraise e eq_refl).
Qed.

Lemma mapM_Ok_inv {A B} (f : A -> res B) l k :
  mapM f l = Ok k -> Forall2 (fun x y => f x = Ok y) l k.
Proof.
  revert k. induction l as [|x l IH]; intros k; simpl.
  - intros [= <-]. constructor.
  - destruct (f x) as [y|] eqn:Hy; simpl; [|done].
    destruct (mapM f l) as [k'|]; simpl; [|done].
    intros [= <-]. constructor; [done|by apply IH].
Qed.

Lemma mapM_Raise_inv {A B} (f : A -> res B) l e :
  mapM f l = Raise e -> exists x, x ∈ l /\ f x = Raise e.
Proof.
  induction l as [|x l IH]; simpl; [done|].
  destruct (f x) as [y|e'] eqn:Hy; simpl.
  - destruct (mapM f l) as [k'|e']; simpl; [done|].
    intros [= <-]. destruct IH as (x' & ? & ?); [done|].
    exists x'. split; [by right|done].
  - intros [= <-]. exists x. split; [by left|done].
Qed.


(** When the loop gets through, every member was written as [relocated]
    says. *)
Lemma relocate_Ok prefix source result :
  relocate prefix source = Ok result ->
  result = relocated prefix source <$> source /\
  Forall (fun m => relocate_member prefix source m
                   = Ok (relocated prefix source m)) source.
Proof.
  rewrite relocate_spec. intros Hall%mapM_Ok_inv.
  assert (Forall2 (fun m m' => m' = relocated prefix source m /\
             relocate_member prefix source m
             = Ok (relocated prefix source m)) source result) as H2.
  { eapply Forall2_impl; [exact Hall|]. simpl. intros m m' Hm.
    destruct (relocate_member_Ok_inv _ _ _ _ Hm) as (-> & _). done. }
  clear Hall. generalize (relocated prefix source) H2.
  generalize (relocate_member prefix source). clear.
  intros f g H2. induction H2 as [|m m' l k [-> Hm] _ [-> IH]].
  - split; [done|constructor].
  - split; [done|]. by constructor.
Qed.

(** The exception of a loop that does not get through is the exception of
    the turn for some member. *)
Lemma relocate_Raise prefix source e :
  relocate prefix source = Raise e ->
  exists m, m ∈ source /\ relocate_member prefix source m = Raise e.
Proof. rewrite relocate_spec. apply mapM_Raise_inv. Qed.

End ZipFacts.

(** ** Reasoning about runs of the handler *)

Section Runs.
Context {A B : Type}.
Implicit Types (m : M A) (k : A -> M B) (w : World).

Lemma bind_Val_inv m k w b w' :
  (m ≫= k) w = (Val b, w') ->
  exists a w1, m w = (Val a, w1) /\ k a w1 = (Val b, w').
Proof.
  unfold mbind, M_bind. destruct (m w) as [[a|r|e] w1]; [|done|done].
  intros Hk. by exists a, w1.
Qed.

Lemma bind_Val m k w a w1 :
  m w = (Val a, w1) -> (m ≫= k) w = k a w1.
Proof. unfold mbind, M_bind. by intros ->. Qed.

Lemma bind_Return m k w r w1 :
  m w = (Return r, w1) -> (m ≫= k) w = (Return r, w1).
Proof. unfold mbind, M_bind. by intros ->. Qed.

Lemma bind_Exc m k w e w1 :
  m w = (Exc e, w1) -> (m ≫= k) w = (Exc e, w1).
Proof. unfold mbind, M_bind. by intros ->. Qed.

Lemma bind_Return_inv m k w r w' :
  (m ≫= k) w = (Return r, w') ->
  m w = (Return r, w') \/
  exists a w1, m w = (Val a, w1) /\ k a w1 = (Return r, w').
Proof.
  unfold mbind, M_bind. destruct (m w) as [[a|r0|e] w1]; [| |done].
  - intros Hk. right. by exists a, w1.
  - intros [= -> ->]. by left.
Qed.

End Runs.

Lemma ask_Val_inv {A} (f : Os.FS -> res A) w a w' :
  ask f w = (Val a, w') -> f (fs w) = Ok a /\ w' = w.
Proof. unfold ask. destruct (f (fs w)); [|done]. by intros [= -> ->]. Qed.

Lemma ask_Ok {A} (f : Os.FS -> res A) w a :
  f (fs w) = Ok a -> ask f w = (Val a, w).
Proof. unfold ask. by intros ->. Qed.

Lemma ask_not_Return {A} (f : Os.FS -> res A) w r w' :
  ask f w <> (Return r, w').
Proof. unfold ask. by destruct (f (fs w)). Qed.

Lemma pure_res_not_Return {A} (x : res A) w r w' :
  pure_res x w <> (Return r, w').
Proof. apply ask_not_Return. Qed.

Lemma change_Val_inv (f : Os.FS -> res Os.FS) w u w' :
  change f w = (Val u, w') ->
  exists fs', f (fs w) = Ok fs' /\ w' = set_fs w fs'.
Proof.
  unfold change. destruct (f (fs w)) as [fs'|]; [|done].
  intros [= _ <-]. by exists fs'.
Qed.

Lemma change_not_Return (f : Os.FS -> res Os.FS) w r w' :
  change f w <> (Return r, w').
Proof. unfold change. by destruct (f (fs w)). Qed.

(** [make_folder] ends with a changed file system, or with an exception
    and nothing changed. *)
Lemma make_folder_cases name w :
  (exists fs', make_folder name w = (Val tt, set_fs w fs')) \/
  (exists e, make_folder name w = (Exc e, w)).
Proof.
  unfold make_folder.
  destruct (Os.mkdir name (fs w)) as [fs'|e]; [by left; exists fs'|].
  destruct e; try (by right; eexists).
  destruct (Os.walk_remove_files name (fs w)) as [fs'|e];
    [by left; exists fs'|by right; eexists].
Qed.

Lemma make_folder_not_Return name w r w' :
  make_folder name w <> (Return r, w').
Proof. by destruct (make_folder_cases name w) as [[? ->]|[? ->]]. Qed.

Lemma make_folder_published name w u w' :
  make_folder name w = (Val u, w') -> published w' = published w.
Proof.
  destruct (make_folder_cases name w) as [[? ->]|[? ->]]; [|done].
  by intros [= _ <-].
Qed.

Lemma make_folders_not_Return ModuleName w r w' :
  make_folders ModuleName w <> (Return r, w').
Proof.
  unfold make_folders. intros H.
  apply bind_Return_inv in H as [H|(? & ? & _ & H)];
    by apply make_folder_not_Return in H.
Qed.

(** What a run of [download] that came through has seen. *)
Lemma download_inv env event w ModuleName CustomLayerName WheelFileName w' :
  download env event w = (Val (ModuleName, CustomLayerName, WheelFileName), w') ->
  event !! "ModuleName" = Some ModuleName /\
  CustomLayerName = default EmptyString (event !! "CustomLayerName") /\
  exists w1 output files,
    make_folders ModuleName w = (Val tt, w1) /\
    pip_download env ModuleName (TmpModuleFolder ModuleName)
                 TmpPipCacheFolder (fs w1) = (output, fs w') /\
    returncode output = 0%Z /\
    w' = set_fs w1 (fs w') /\
    Os.listdir (TmpModuleFolder ModuleName) (fs w') = Ok files /\
    WheelFileName = first_wheel files /\
    WheelFileName <> EmptyString.
Proof.
  unfold download. intros H.
  apply bind_Val_inv in H as (mn & wa & Hmn & H).
  unfold get_ModuleName in Hmn.
  destruct (event !! "ModuleName") as [mn'|] eqn:Hev; [|done].
  injection Hmn as -> <-.
  apply bind_Val_inv in H as (cn & wb & Hcn & H).
  assert (cn = default EmptyString (event !! "CustomLayerName") /\ wb = w)
    as [-> ->].
  { unfold get_CustomLayerName in Hcn.
    destruct (event !! "CustomLayerName"); by injection Hcn as -> ->. }
  apply bind_Val_inv in H as ([] & w1 & Hmk & H).
  apply bind_Val_inv in H as ([] & w2 & Hpip & H).
  apply bind_Val_inv in H as (whl & w3 & Hfind & H).
  injection H as -> -> -> ->.
  unfold run_pip in Hpip.
  destruct (pip_download _ _ _ _ _) as [output fs2] eqn:Hrun.
  destruct (decide (returncode output = 0%Z)) as [Hok|]; [|done].
  injection Hpip as <-.
  unfold find_wheel in Hfind.
  apply bind_Val_inv in Hfind as (files & w4 & Hls & Hfind).
  apply ask_Val_inv in Hls as [Hls ->].
  destruct (decide (first_wheel files = EmptyString)) as [|Hne]; [done|].
  injection Hfind as <- <-.
  split; [done|]. split; [done|].
  exists w1, output, files. simpl in *. done.
Qed.

(** And the other way round. *)
Lemma download_run env event w ModuleName w1 output fs2 files :
  event !! "ModuleName" = Some ModuleName ->
  make_folders ModuleName w = (Val tt, w1) ->
  pip_download env ModuleName (TmpModuleFolder ModuleName)
               TmpPipCacheFolder (fs w1) = (output, fs2) ->
  returncode output = 0%Z ->
  Os.listdir (TmpModuleFolder ModuleName) fs2 = Ok files ->
  download env event w =
    if decide (first_wheel files = EmptyString) then
      (Return (NotFound
         ("pip was not able to download a wheel file for " +:+ ModuleName)),
       set_fs w1 fs2)
    else
      (Val (ModuleName, default EmptyString (event !! "CustomLayerName"),
            first_wheel files),
       set_fs w1 fs2).
Proof.
  intros Hev Hmk Hpip Hok Hls. unfold download, get_ModuleName. rewrite Hev.
  unfold get_CustomLayerName.
  assert (run_pip env ModuleName w1 = (Val tt, set_fs w1 fs2)) as Hrun.
  { unfold run_pip. rewrite Hpip. by rewrite decide_True. }
  assert (forall w0 : World, fs w0 = fs2 ->
            ask (Os.listdir (TmpModuleFolder ModuleName)) w0 = (Val files, w0))
    as Hask.
  { intros w0 Hw0. apply ask_Ok. by rewrite Hw0. }
  destruct (event !! "CustomLayerName") as [cn|];
    unfold mbind, M_bind, mret, M_ret; rewrite Hmk, Hrun;
    unfold find_wheel, mbind, M_bind; rewrite Hask by done;
    by destruct (decide (first_wheel files = EmptyString)).
Qed.

(** ** Facts about the string functions *)

Module PyStrFacts.
Import PyStr.

Lemma split_without_sep sep s :
  contains sep s = false -> split sep s = [s].
Proof.
  induction s as [|c s IH]; simpl; [done|].
  intros [Hc Hs]%orb_false_elim. rewrite Hc, (IH Hs). done.
Qed.



Lemma endswith_spec s suffix :
  endswith s suffix = true <-> exists stem, s = stem +:+ suffix.
Proof.
  induction s as [|c s IH].
  - change (endswith EmptyString suffix)
      with (String.eqb EmptyString suffix || false)%bool.
    rewrite orb_false_r, String.eqb_eq. split.
    + intros <-. by exists EmptyString.
    + intros [[|? ?] Hst]; simpl in Hst; [done|discriminate].
  - change (endswith (String c s) suffix)
      with (String.eqb (String c s) suffix || endswith s suffix)%bool.
    rewrite orb_true_iff, String.eqb_eq, IH. split.
    + intros [<-|[stem ->]]; [by exists EmptyString|by exists (String c stem)].
    + intros [[|d stem] Hst]; simpl in Hst; [by left|].
      injection Hst as -> ->. right. by exists stem.
Qed.

Lemma append_empty_l (b : string) : EmptyString +:+ b = b.
Proof. reflexivity. Qed.

Lemma append_String c (a b : string) :
  String c a +:+ b = String c (a +:+ b).
Proof. reflexivity. Qed.

Lemma lower_app a b : lower (a +:+ b) = lower a +:+ lower b.
Proof.
  induction a as [|c a IH]; [done|].
  rewrite append_String. simpl. by rewrite IH.
Qed.

Lemma lower_app_inv s : forall a b,
  lower s = a +:+ b ->
  exists a' b', s = a' +:+ b' /\ lower a' = a /\ lower b' = b.
Proof.
  induction s as [|c s IH]; intros a b; simpl.
  - destruct a; [|discriminate]. rewrite append_empty_l. intros <-.
    by exists EmptyString, EmptyString.
  - destruct a as [|d a].
    + rewrite append_empty_l. intros <-. by exists EmptyString, (String c s).
    + rewrite append_String. intros [= <- Hs].
      destruct (IH a b Hs) as (a' & b' & -> & <- & <-).
      by exists (String c a'), b'.
Qed.

Lemma remove_char_absent c s : contains c (remove_char c s) = false.
Proof.
  induction s as [|d s IH]; simpl; [done|].
  destruct (Ascii.eqb d c) eqn:Hd; simpl; [done|]. by rewrite Hd.
Qed.

Lemma remove_char_id c s : contains c s = false -> remove_char c s = s.
Proof.
  induction s as [|d s IH]; simpl; [done|].
  intros [Hd Hs]%orb_false_elim. rewrite Hd, (IH Hs). done.
Qed.

End PyStrFacts.

(** ** Facts about the wheel search *)

(** A name counts as a wheel exactly when it ends in an extension that
    lower-cases to [.whl]. *)
Lemma is_wheel_name_spec file :
  is_wheel_name file = true <->
  exists stem ext, file = stem +:+ ext /\ PyStr.lower ext = ".whl".
Proof.
  unfold is_wheel_name. rewrite PyStrFacts.endswith_spec. split.
  - intros [stem' Hlow].
    destruct (PyStrFacts.lower_app_inv _ _ _ Hlow) as (stem & ext & -> & _ & ?).
    by exists stem, ext.
  - intros (stem & ext & -> & Hext).
    exists (PyStr.lower stem). by rewrite PyStrFacts.lower_app, Hext.
Qed.

Lemma is_wheel_name_nonempty file :
  is_wheel_name file = true -> file <> EmptyString.
Proof. by intros Hw ->. Qed.

Lemma first_wheel_none files :
  Forall (fun file => is_wheel_name file = false) files ->
  first_wheel files = EmptyString.
Proof.
  induction 1 as [|file files Hfile _ IH]; simpl; [done|]. by rewrite Hfile.
Qed.

Lemma first_wheel_first before file after :
  Forall (fun f => is_wheel_name f = false) before ->
  is_wheel_name file = true ->
  first_wheel (before ++ file :: after) = file.
Proof.
  intros Hbefore Hfile.
  induction Hbefore as [|f before Hf _ IH]; simpl.
  - by rewrite Hfile.
  - by rewrite Hf.
Qed.

Lemma first_wheel_found files :
  first_wheel files <> EmptyString ->
  is_wheel_name (first_wheel files) = true /\ first_wheel files ∈ files.
Proof.
  induction files as [|file files IH]; simpl; [done|].
  destruct (is_wheel_name file) eqn:Hfile.
  - intros _. split; [done|]. apply list_elem_of_here.
  - intros Hne. destruct (IH Hne) as [? ?].
    split; [done|]. by apply list_elem_of_further.
Qed.

(** ** Facts about the file system calls *)

Module OsFacts.
Import Os.

Lemma find_node_unlink p q (fs : FS) :
  find_node (unlink p fs) q = if decide (q = p) then None else find_node fs q.
Proof.
  unfold unlink. induction fs as [|[q' n] fs IH]; simpl.
  - by destruct (decide (q = p)).
  - rewrite filter_cons. simpl.
    destruct (decide (q' <> p)) as [Hne|Heq]; simpl.
    + rewrite IH. destruct (decide (q' = q)) as [->|]; [|done].
      by rewrite decide_False.
    + apply dec_stable in Heq as ->. rewrite IH.
      destruct (decide (q = p)) as [->|Hqp]; [done|].
      by rewrite decide_False.
Qed.

Lemma node_at_unlink_None p q (fs : FS) :
  node_at fs q = None -> node_at (unlink p fs) q = None.
Proof.
  destruct q as [|c q]; [done|]. simpl. rewrite find_node_unlink.
  by destruct (decide (c :: q = p)).
Qed.

Lemma lookup_Ok_inv path (fs : FS) n :
  lookup path fs = Ok n ->
  path_error path = None /\ walk_error path fs = None /\
  node_at fs (resolve path) = Some n.
Proof.
  unfold lookup. destruct (path_error path); [done|].
  destruct (walk_error path fs); [done|].
  destruct (node_at fs (resolve path)) as [[d|]|]; [|by intros [= <-]|done].
  destruct (ends_in_slash path); [done|]. by intros [= <-].
Qed.

Lemma remove_Ok_inv path (fs fs' : FS) :
  remove path fs = Ok fs' ->
  (exists d, node_at fs (resolve path) = Some (File d)) /\
  fs' = unlink (resolve path) fs.
Proof.
  unfold remove. destruct (lookup path fs) as [[d|]|] eqn:Hn; try done.
  simpl. intros [= <-]. apply lookup_Ok_inv in Hn as (_ & _ & Hn).
  split; [by exists d|done].
Qed.

Lemma rmdir_Ok_inv path (fs fs' : FS) :
  rmdir path fs = Ok fs' ->
  resolve path <> [] /\ fs' = unlink (resolve path) fs.
Proof.
  unfold rmdir. destruct (lookup path fs) as [[d|]|]; try done. simpl.
  destruct (ends_in_dot path); [done|].
  destruct (ends_in_dotdot path); [done|].
  destruct (decide (resolve path = [])); [done|].
  destruct (bool_decide _); [done|]. by intros [= <-].
Qed.

Lemma rmtree_Ok_inv path (fs fs' : FS) :
  rmtree path fs = Ok fs' ->
  resolve path <> [] /\
  fs' = filter (fun e : Path * Node => ~ is_below (resolve path) e.1)
               (unlink (resolve path) fs).
Proof.
  unfold rmtree. destruct (lookup path fs) as [[d|]|]; try done. simpl.
  destruct (ends_in_dot path); [done|].
  destruct (ends_in_dotdot path); [done|].
  destruct (decide (resolve path = [])); [done|]. by intros [= <-].
Qed.

Lemma read_file_Ok_inv path (fs : FS) d :
  read_file path fs = Ok d -> node_at fs (resolve path) = Some (File d).
Proof.
  unfold read_file. destruct (lookup path fs) as [[d'|]|] eqn:Hn; try done.
  simpl. intros [= <-]. by apply lookup_Ok_inv in Hn as (_ & _ & Hn).
Qed.

Lemma create_Ok_inv path n (fs fs' : FS) :
  create path n fs = Ok fs' -> fs' = fs ++ [(resolve path, n)].
Proof.
  unfold create. destruct (ends_in_name path); [|done].
  destruct (_ <? _)%nat; [done|]. by intros [= <-].
Qed.

Lemma open_truncate_Ok_inv path (fs fs' : FS) :
  open_truncate path fs = Ok fs' ->
  fs' = overwrite (resolve path) (RawData []) fs \/
  fs' = fs ++ [(resolve path, File (RawData []))].
Proof.
  unfold open_truncate. destruct (path_error path); [done|].
  destruct (walk_error path fs); [done|].
  destruct (ends_in_slash path); [done|].
  destruct (node_at fs (resolve path)) as [[d|]|]; [|done|].
  - intros [= <-]. by left.
  - intros ->%create_Ok_inv. by right.
Qed.

(** After [os.remove] the path names nothing. *)
Lemma remove_gone path (fs fs' : FS) :
  remove path fs = Ok fs' ->
  fs' = unlink (resolve path) fs /\ node_at fs' (resolve path) = None.
Proof.
  intros [[d Hn] ->]%remove_Ok_inv. split; [done|].
  destruct (resolve path) as [|c p]; [done|]. simpl.
  rewrite find_node_unlink. by rewrite decide_True.
Qed.

(** After [os.rmdir] the path names nothing either. *)
Lemma rmdir_gone path (fs fs' : FS) :
  rmdir path fs = Ok fs' ->
  fs' = unlink (resolve path) fs /\ node_at fs' (resolve path) = None.
Proof.
  intros [Hroot ->]%rmdir_Ok_inv. split; [done|].
  destruct (resolve path) as [|c p]; [done|]. simpl.
  rewrite find_node_unlink. by rewrite decide_True.
Qed.

End OsFacts.

(** ** The two halves of the handler *)

Lemma handler_after_prepare env event w p w1 :
  prepare env event w = (Val p, w1) ->
  lambda_handler env event w =
    match publish env p w1 with
    | (Val r, w') => (Returned r, w')
    | (Return r, w') => (Returned r, w')
    | (Exc e, w') => (Raised e, w')
    end.
Proof. intros Hp. unfold lambda_handler. by rewrite (bind_Val _ _ _ _ _ Hp). Qed.

Lemma handler_prepare_Return env event w r w1 :
  prepare env event w = (Return r, w1) ->
  lambda_handler env event w = (Returned r, w1).
Proof.
  intros Hp. unfold lambda_handler. by rewrite (bind_Return _ _ _ _ _ Hp).
Qed.

Lemma handler_prepare_Exc env event w e w1 :
  prepare env event w = (Exc e, w1) ->
  lambda_handler env event w = (Raised e, w1).
Proof.
  intros Hp. unfold lambda_handler. by rewrite (bind_Exc _ _ _ _ _ Hp).
Qed.

Lemma prepare_inv env event w p w' :
  prepare env event w = (Val p, w') ->
  exists w0,
    download env event w =
      (Val (p_ModuleName p, p_CustomLayerName p, p_WheelFileName p), w0) /\
    module_version (p_WheelFileName p) = Ok (p_ModuleVersion p) /\
    Os.read_file
      (NewZipFolderFileName env (p_ModuleName p) (p_ModuleVersion p)) (fs w')
    = Ok (p_WheelContent p).
Proof.
  unfold prepare. intros H.
  apply bind_Val_inv in H as ([[mn cn] whl] & w0 & Hdl & H).
  apply bind_Val_inv in H as (ver & w1 & Hver & H).
  unfold pure_res in Hver. apply ask_Val_inv in Hver as [Hver ->].
  apply bind_Val_inv in H as ([] & w2 & Hzip & H).
  apply bind_Val_inv in H as (content & w3 & Hread & H).
  apply ask_Val_inv in Hread as [Hread ->].
  injection H as <- <-. simpl. by exists w0.
Qed.

(** The publish half when the [try] body raises. *)
Lemma publish_raises env p w text w2 :
  try_publish env
    (publish_call env
       (new_layer_name env (p_ModuleName p) (p_ModuleVersion p)
                       (p_CustomLayerName p))
       (p_WheelContent p)) w = (Some text, w2) ->
  publish env p w =
    (Return (mkResponse 500 (Some "ServiceException")
       ("There was a problem when calling the Python boto3 publish_layer_version function: "
        +:+ text)), w2) /\
  fs w2 = fs w.
Proof.
  intros Htry. unfold publish. rewrite Htry. split; [done|].
  unfold try_publish in Htry. destruct (boto3_client env).
  - by injection Htry as _ <-.
  - by injection Htry as _ <-.
Qed.

(** The publish half when the [try] body goes through. *)
Lemma publish_goes_through env p w w2 out w' :
  try_publish env
    (publish_call env
       (new_layer_name env (p_ModuleName p) (p_ModuleVersion p)
                       (p_CustomLayerName p))
       (p_WheelContent p)) w = (None, w2) ->
  publish env p w = (out, w') ->
  (forall e, out <> Exc e) ->
  out = Val (mkResponse 200 None
          ("New layer was succesfully created with the name " +:+
           new_layer_name env (p_ModuleName p) (p_ModuleVersion p)
                          (p_CustomLayerName p))) /\
  exists fs1,
    Os.remove (NewZipFolderFileName env (p_ModuleName p) (p_ModuleVersion p))
              (fs w2) = Ok fs1 /\
    Os.rmdir (TmpModuleFolder (p_ModuleName p)) fs1 = Ok (fs w') /\
    published w' = published w2.
Proof.
  intros Htry Hpub Hout. unfold publish in Hpub. rewrite Htry in Hpub.
  unfold mbind, M_bind, change in Hpub.
  destruct (Os.remove _ (fs w2)) as [fs1|e] eqn:Hrm.
  - simpl in Hpub. destruct (Os.rmdir _ fs1) as [fs2|e] eqn:Hrd.
    + injection Hpub as <- <-. split; [done|]. by exists fs1.
    + injection Hpub as <- <-. by destruct (Hout e).
  - injection Hpub as <- <-. by destruct (Hout e).
Qed.

(** ** What the handler hands to boto3 *)

Lemma keeps_bind {A B} (m : M A) (k : A -> M B) :
  keeps_published m -> (forall a, keeps_published (k a)) ->
  keeps_published (m ≫= k).
Proof.
  intros Hm Hk w. unfold mbind, M_bind. specialize (Hm w).
  destruct (m w) as [[a|r|e] w1]; simpl in *; [|done|done].
  by rewrite Hk.
Qed.

Lemma keeps_mret {A} (a : A) : keeps_published (mret a).
Proof. done. Qed.

Lemma keeps_return {A} r : keeps_published (@return_ A r).
Proof. done. Qed.

Lemma keeps_ask {A} (f : Os.FS -> res A) : keeps_published (ask f).
Proof. intros w. unfold ask. by destruct (f (fs w)). Qed.

Lemma keeps_change f : keeps_published (change f).
Proof. intros w. unfold change. by destruct (f (fs w)). Qed.

Lemma keeps_make_folder name : keeps_published (make_folder name).
Proof.
  intros w. by destruct (make_folder_cases name w) as [[? ->]|[? ->]].
Qed.

Lemma keeps_run_pip env ModuleName : keeps_published (run_pip env ModuleName).
Proof.
  intros w. unfold run_pip. destruct (pip_download _ _ _ _ _).
  by destruct (decide _).
Qed.

Lemma keeps_download env event : keeps_published (download env event).
Proof.
  unfold download. apply keeps_bind.
  { unfold get_ModuleName. destruct (event !! "ModuleName");
      [apply keeps_mret|apply keeps_return]. }
  intros ModuleName. apply keeps_bind.
  { unfold get_CustomLayerName. destruct (event !! "CustomLayerName");
      apply keeps_mret. }
  intros CustomLayerName. apply keeps_bind.
  { apply keeps_bind; [apply keeps_make_folder|].
    intros _. apply keeps_make_folder. }
  intros _. apply keeps_bind; [apply keeps_run_pip|].
  intros _. apply keeps_bind; [|intros; apply keeps_mret].
  unfold find_wheel. apply keeps_bind; [apply keeps_ask|].
  intros files. destruct (decide _); [apply keeps_return|apply keeps_mret].
Qed.

Lemma keeps_build_zip env ModuleName WheelFileName ModuleVersion :
  keeps_published (build_zip env ModuleName WheelFileName ModuleVersion).
Proof.
  unfold build_zip. apply keeps_bind; [apply keeps_ask|].
  intros InZipFile. apply keeps_bind.
  { intros w. by destruct (Os.ZipFile_w _ (fs w)) as [[? ?]|]. }
  intros OutZipFile. apply keeps_bind; [apply keeps_ask|].
  intros st. apply keeps_bind; [apply keeps_change|].
  intros _. apply keeps_bind; [apply keeps_change|].
  intros _. apply keeps_change.
Qed.

Lemma keeps_prepare env event : keeps_published (prepare env event).
Proof.
  unfold prepare. apply keeps_bind; [apply keeps_download|].
  intros [[ModuleName CustomLayerName] WheelFileName].
  apply keeps_bind; [apply keeps_ask|].
  intros ModuleVersion. apply keeps_bind; [apply keeps_build_zip|].
  intros _. apply keeps_bind; [apply keeps_ask|].
  intros; apply keeps_mret.
Qed.

(** With a client in hand the handler makes exactly one publish call, under
    the name [new_layer_name] computes. *)
Lemma handler_publish_call env event w p w1 :
  prepare env event w = (Val p, w1) ->
  boto3_client env = None ->
  published (lambda_handler env event w).2 =
    published w ++
      [publish_call env
         (new_layer_name env (p_ModuleName p) (p_ModuleVersion p)
                         (p_CustomLayerName p))
         (p_WheelContent p)].
Proof.
  intros Hprep Hboto. rewrite (handler_after_prepare _ _ _ _ _ Hprep).
  pose proof (keeps_prepare env event w) as Hkeep.
  rewrite Hprep in Hkeep. simpl in Hkeep. rewrite <- Hkeep.
  unfold publish, try_publish. rewrite Hboto.
  destruct (publish_layer_version env _); [done|].
  unfold mbind, M_bind, change. simpl.
  destruct (Os.remove _ (fs w1)) as [fs1|]; simpl; [|done].
  by destruct (Os.rmdir _ fs1).
Qed.

(** ** What the handler publishes *)

Module OsMoreFacts.
Import Os.

Lemma find_node_elem_of (fs : FS) q n :
  find_node fs q = Some n -> (q, n) ∈ fs.
Proof.
  induction fs as [|[q' n'] fs IH]; simpl; [done|].
  destruct (decide (q' = q)) as [->|].
  - intros [= ->]. apply list_elem_of_here.
  - intros Hn. by apply list_elem_of_further, IH.
Qed.

(** Dropping nodes by a test on their path either keeps what a path names
    or drops it. *)
Lemma find_node_filter (P : Path -> Prop)
    `{forall e : Path * Node, Decision (P e.1)} (fs : FS) q n :
  find_node (filter (fun e : Path * Node => P e.1) fs) q = Some n ->
  find_node fs q = Some n.
Proof.
  induction fs as [|[q' n'] fs IH]; simpl; [done|].
  rewrite filter_cons. simpl. destruct (decide (P q')) as [Hq'|Hq']; simpl.
  - destruct (decide (q' = q)); [done|apply IH].
  - intros Hn. destruct (decide (q' = q)) as [->|]; [|by apply IH].
    apply find_node_elem_of, list_elem_of_filter in Hn as [HP _]. done.
Qed.

Lemma find_node_overwrite p d (fs : FS) :
  find_node (overwrite p d fs) p =
    (fun n => if is_file n then File d else n) <$> find_node fs p.
Proof.
  unfold overwrite. induction fs as [|[q n] fs IH]; simpl; [done|].
  destruct (decide (q = p)) as [->|Hne]; simpl.
  - by rewrite decide_True.
  - by rewrite decide_False.
Qed.

End OsMoreFacts.

(** After [build_zip] the new zip file, if it can be read at all, holds the
    members of the wheel as the relocation loop rewrites them.  (The new
    file is never the wheel itself: one name ends in [.zip], the other in
    [.whl].) *)
Lemma build_zip_content env ModuleName WheelFileName ModuleVersion w w' content :
  build_zip env ModuleName WheelFileName ModuleVersion w = (Val tt, w') ->
  Os.read_file (NewZipFolderFileName env ModuleName ModuleVersion) (fs w')
  = Ok content ->
  exists source result,
    Os.read_file (WheelFolderFileName ModuleName WheelFileName) (fs w)
    = Ok (Os.ZipData source) /\
    Zip.relocate (ExtendedPythonModulePathName env) source = Ok result /\
    content = Os.ZipData result.
Proof.
  unfold build_zip. intros H Hread.
  apply bind_Val_inv in H as (InZipFile & wa & Hin & H).
  apply ask_Val_inv in Hin as [Hin ->]. unfold Os.ZipFile_r in Hin.
  destruct (Os.read_file (WheelFolderFileName ModuleName WheelFileName) (fs w))
    as [[b|source]|] eqn:Hwheel; simpl in Hin; try done.
  injection Hin as <-. exists source.
  apply bind_Val_inv in H as (OutZipFile & wb & Hout & H).
  assert (OutZipFile = Zip.open_write) as ->.
  { destruct (Os.ZipFile_w _ (fs w)) as [[zf fs1]|] eqn:Hw; [|done].
    injection Hout as <- _. unfold Os.ZipFile_w in Hw.
    destruct (Os.open_truncate _ (fs w)); [|done]. by injection Hw as <- _. }
  clear Hout.
  apply bind_Val_inv in H as (st & wc & Hloop & H).
  unfold pure_res in Hloop. apply ask_Val_inv in Hloop as [Hloop ->].
  exists (Zip.w_file st.2). split; [done|].
  split; [unfold Zip.relocate; by rewrite Hloop|].
  apply bind_Val_inv in H as ([] & wd & Hrm & H).
  apply change_Val_inv in Hrm as (fs2 & _ & ->).
  apply bind_Val_inv in H as ([] & we & Hclose & H).
  apply change_Val_inv in Hclose as (fs3 & Hclose & ->).
  injection Hclose as <-.
  apply change_Val_inv in H as (fs4 & Htree & ->). simpl in *.
  apply OsFacts.rmtree_Ok_inv in Htree as [_ ->].
  apply OsFacts.read_file_Ok_inv in Hread.
  destruct (Os.resolve (NewZipFolderFileName env ModuleName ModuleVersion))
    as [|c pz] eqn:Hpz; [done|]. simpl in Hread. rename Hread into Hnode.
  apply (OsMoreFacts.find_node_filter
           (fun q => ~ Os.is_below (Os.resolve TmpPipCacheFolder) q)) in Hnode.
  apply (OsMoreFacts.find_node_filter
           (fun q => q <> Os.resolve TmpPipCacheFolder)) in Hnode.
  unfold Os.ZipFile_close in Hnode. rewrite Hpz in Hnode.
  rewrite OsMoreFacts.find_node_overwrite in Hnode.
  destruct (Os.find_node fs2 (c :: pz)) as [[d'|]|]; simpl in Hnode; try done.
  by injection Hnode as <-.
Qed.

(** The content handed to [publish_layer_version] is the wheel pip left,
    relocated. *)
Lemma prepare_content env event w p w1 :
  prepare env event w = (Val p, w1) ->
  exists w0 source result,
    download env event w =
      (Val (p_ModuleName p, p_CustomLayerName p, p_WheelFileName p), w0) /\
    Os.read_file (WheelFolderFileName (p_ModuleName p) (p_WheelFileName p))
                 (fs w0) = Ok (Os.ZipData source) /\
    Zip.relocate (ExtendedPythonModulePathName env) source = Ok result /\
    p_WheelContent p = Os.ZipData result.
Proof.
  unfold prepare. intros H.
  apply bind_Val_inv in H as ([[mn cn] whl] & w0 & Hdl & H).
  apply bind_Val_inv in H as (ver & wa & Hver & H).
  unfold pure_res in Hver. apply ask_Val_inv in Hver as [Hver ->].
  apply bind_Val_inv in H as ([] & w2 & Hzip & H).
  apply bind_Val_inv in H as (content & w3 & Hread & H).
  apply ask_Val_inv in Hread as [Hread ->].
  injection H as <- <-. simpl.
  destruct (build_zip_content _ _ _ _ _ _ _ Hzip Hread)
    as (source & result & ? & ? & ?).
  by exists w0, source, result.
Qed.

(** ** The relocation loop: claims C1, C8 and C9 *)

Lemma Forall2_fmap_self {X Y} (R : X -> Y -> Prop) (f : X -> Y) (l : list X) :
  (forall x, x ∈ l -> R x (f x)) -> Forall2 R l (f <$> l).
Proof.
  induction l as [|x l IH]; intros HR; simpl; [constructor|].
  constructor.
  - apply HR, list_elem_of_here.
  - apply IH. intros y Hy. by apply HR, list_elem_of_further.
Qed.

(** When no two members of the source share a name, every member a loop
    that gets through has written arrives under the new name with its own
    content, in the order of the source. *)
Lemma relocate_distinct_names prefix (source result : list Zip.Member) :
  NoDup (Zip.entry_name <$> source) ->
  Zip.relocate prefix source = Ok result ->
  Forall2 (fun m m' =>
             Zip.m_name m' = prefix +:+ "/" +:+ Zip.entry_name m /\
             Zip.m_data m' = Zip.m_data m) source result.
Proof.
  intros Hnd [-> _]%ZipFacts.relocate_Ok.
  apply Forall2_fmap_self. intros m [i Hi]%list_elem_of_lookup_1.
  split; [done|]. simpl. by apply (ZipFacts.content_by_name_NoDup source i).
Qed.

(** C1.  The loop reads each member by its name
    ([InZipFile.read(CurrentFileName)]), and a name that occurs twice in the
    wheel resolves to the later member.  On the wheel with two members
    [examplepkg/data.txt] holding the bytes 01 and 02, the output has two
    members, both named [<prefix>/examplepkg/data.txt], both holding 02: no
    member of the output carries the content 01 of the first source member,
    so the source is not copied entry for entry; the whole handler publishes
    just that archive. *)
Theorem C1_same_name_members_share_content :
  exists result w',
    Zip.relocate Sample.prefix39 Sample.wheel_same_name = Ok result /\
    Zip.m_name <$> result =
      [ "/python/lib/python3.9/site-packages/examplepkg/data.txt";
        "/python/lib/python3.9/site-packages/examplepkg/data.txt" ] /\
    Zip.m_data <$> result = [ [x02]; [x02] ] /\
    ~ copies_every_entry Sample.prefix39 Sample.wheel_same_name result /\
    lambda_handler
      (Sample.env
         (Sample.pip_leaves
            [("examplepkg-1.2.3-py3-none-any.whl",
              Os.ZipData Sample.wheel_same_name)])
         Sample.publish_ok)
      Sample.event_examplepkg Sample.tmp_only
    = (Returned (mkResponse 200 None
         "New layer was succesfully created with the name examplepkg_123_py39"),
       w') /\
    Content <$> published w' = [Os.ZipData result].
Proof.
  eexists _, _. split; [vm_compute; reflexivity|].
  split; [reflexivity|]. split; [reflexivity|]. split.
  - intros [_ Hall].
    destruct (Hall (Zip.mkMember "examplepkg/data.txt" Sample.stamp 0
                                 Sample.rw_r_r [x01] 0 true))
      as (e' & Hin & _ & Hdata); [apply list_elem_of_here|].
    apply elem_of_cons in Hin as [->|Hin]; [discriminate Hdata|].
    apply list_elem_of_singleton in Hin as ->. discriminate Hdata.
  - split; [vm_compute; reflexivity|reflexivity].
Qed.

(** C8.  When a relocation and the relocation of its output with the same
    prefix both get through, no member is merged or dropped: the second
    output has as many members as the first, which has as many as the
    source; and every name gets the prefix a second time, exactly as
    written: the names of the second output are the names zipfile reports
    for the first, each behind the prefix and a slash, which for a prefix
    without a null byte (the handler's prefix is one) is the source name
    behind the prefix twice. *)
Theorem C8_second_relocation_prefixes_again prefix
    (source once twice : list Zip.Member) :
  Zip.relocate prefix source = Ok once ->
  Zip.relocate prefix once = Ok twice ->
  length twice = length once /\
  length once = length source /\
  Zip.m_name <$> once =
    (fun m => prefix +:+ "/" +:+ Zip.entry_name m) <$> source /\
  Zip.m_name <$> twice =
    (fun m => prefix +:+ "/" +:+ Zip.entry_name m) <$> once /\
  (PyStr.contains Ascii.zero prefix = false ->
   Zip.m_name <$> twice =
     (fun m => prefix +:+ "/" +:+ (prefix +:+ "/" +:+ Zip.entry_name m))
       <$> source).
Proof.
  intros [-> _]%ZipFacts.relocate_Ok [-> _]%ZipFacts.relocate_Ok.
  rewrite !length_fmap. split; [done|]. split; [done|].
  rewrite <- !list_fmap_compose. split; [done|]. split; [done|].
  intros Hprefix. apply list_fmap_ext. intros i m _. simpl. f_equal. f_equal.
  unfold Zip.entry_name at 1. simpl.
  rewrite ZipFacts.before_nul_app by done. unfold Zip.entry_name.
  by rewrite ZipFacts.before_nul_idem.
Qed.

Lemma C8_examplepkg_witness :
  exists once twice,
    Zip.relocate Sample.prefix39 Sample.wheel = Ok once /\
    Zip.relocate Sample.prefix39 once = Ok twice /\
    length twice = length once /\
    length once = length Sample.wheel /\
    Zip.m_name <$> twice =
      [ "/python/lib/python3.9/site-packages//python/lib/python3.9/site-packages/examplepkg/__init__.py";
        "/python/lib/python3.9/site-packages//python/lib/python3.9/site-packages/examplepkg-1.2.3.dist-info/METADATA" ].
Proof.
  eexists _, _. split; [vm_compute; reflexivity|].
  split; [vm_compute; reflexivity|].
  destruct (C8_second_relocation_prefixes_again Sample.prefix39 Sample.wheel
              _ _ ltac:(vm_compute; reflexivity) ltac:(vm_compute; reflexivity))
    as (Htwice & Honce & _ & _ & Hnames).
  split; [exact Htwice|]. split; [exact Honce|].
  rewrite (Hnames eq_refl). reflexivity.
Defined.

(** A member without attributes comes out with [rw-------]. *)
Lemma C9_member_without_mode_gets_default :
  exists result,
    Zip.relocate Sample.prefix39 Sample.wheel_without_mode = Ok result /\
    Zip.m_external_attr <$> Sample.wheel_without_mode = [ 0%Z ] /\
    Zip.m_external_attr <$> result = [ Z.shiftl 384 16 ] /\
    ~ Forall2 (renamed_only Sample.prefix39) Sample.wheel_without_mode result.
Proof.
  eexists. split; [vm_compute; reflexivity|].
  split; [reflexivity|]. split; [reflexivity|].
  intros Hall. apply Forall2_cons_1 in Hall as [(_ & Hattr & _) _].
  discriminate Hattr.
Qed.

(** C9, as zipfile has it.  When the relocation gets through, then member
    by member, in the order of the source, the output has the new name, the
    date and time and the compression method of the source member, and its
    external attributes (the permission bits) unless these are zero; a
    member whose external attributes are zero is written with
    [0o600 << 16]. *)
Theorem C9_metadata_as_written prefix (source result : list Zip.Member) :
  Zip.relocate prefix source = Ok result ->
  Forall2 (renamed_as_written prefix) source result.
Proof.
  intros [-> _]%ZipFacts.relocate_Ok.
  apply Forall2_fmap_self. intros m _. by repeat split.
Qed.

Lemma C9_examplepkg_witness :
  exists result,
    Zip.relocate Sample.prefix39 Sample.wheel = Ok result /\
    Forall2 (renamed_as_written Sample.prefix39) Sample.wheel result.
Proof.
  eexists. split; [vm_compute; reflexivity|].
  apply (C9_metadata_as_written Sample.prefix39 Sample.wheel).
  vm_compute; reflexivity.
Defined.

(** ** Cleaning up: claim C2 *)

(** The publish call is refused: the handler answers 500 and both the
    relocated zip file and the download folder are still there. *)
Lemma C2_failed_publish_leaves_artifacts :
  exists p w1 r w',
    prepare (Sample.env Sample.pip_examplepkg Sample.publish_denied)
            Sample.event_examplepkg Sample.tmp_only = (Val p, w1) /\
    lambda_handler (Sample.env Sample.pip_examplepkg Sample.publish_denied)
                   Sample.event_examplepkg Sample.tmp_only = (Returned r, w') /\
    StatusCode r = 500%Z /\
    ~ artifacts_deleted
        (Sample.env Sample.pip_examplepkg Sample.publish_denied) p w'.
Proof.
  eexists _, _, _, _. split; [vm_compute; reflexivity|].
  split; [vm_compute; reflexivity|]. split; [reflexivity|].
  intros [Hzip _]. vm_compute in Hzip. discriminate Hzip.
Qed.

(** C2, as the handler has it.  When the handler has reached the publish
    step and returns, it returns either 200 or 500.  With 200 the relocated
    zip file and the download folder are gone.  With 500 nothing has been
    removed: the file system is the one the publish step started from. *)
Theorem C2_cleanup_only_after_successful_publish env event w p w1 r w' :
  prepare env event w = (Val p, w1) ->
  lambda_handler env event w = (Returned r, w') ->
  (StatusCode r = 200%Z /\ artifacts_deleted env p w') \/
  (StatusCode r = 500%Z /\ fs w' = fs w1).
Proof.
  intros Hprep Hrun. rewrite (handler_after_prepare _ _ _ _ _ Hprep) in Hrun.
  destruct (try_publish env
              (publish_call env
                 (new_layer_name env (p_ModuleName p) (p_ModuleVersion p)
                                 (p_CustomLayerName p))
                 (p_WheelContent p)) w1) as [[text|] w2] eqn:Htry.
  - destruct (publish_raises _ _ _ _ _ Htry) as [Hpub Hfs].
    rewrite Hpub in Hrun. injection Hrun as <- <-. by right.
  - destruct (publish env p w1) as [out wf] eqn:Hpub.
    destruct (publish_goes_through _ _ _ _ _ _ Htry Hpub)
      as (-> & fs1 & Hrm & Hrd & _).
    { intros e ->. discriminate Hrun. }
    injection Hrun as <- <-. left. split; [done|].
    apply OsFacts.remove_gone in Hrm as [-> Hzip].
    apply OsFacts.rmdir_gone in Hrd as [Hfs Hdir].
    split; [|done]. rewrite Hfs. by apply OsFacts.node_at_unlink_None.
Qed.

(** When other files are left in the download folder, [os.rmdir] raises
    after the layer has been published: the handler does not return. *)
Lemma leftover_files_make_rmdir_raise :
  exists w',
    lambda_handler (Sample.env Sample.pip_several Sample.publish_ok)
                   Sample.event_examplepkg Sample.tmp_only
    = (Raised (OSError 39), w') /\
    LayerName <$> published w' = [ "examplepkg_123_py39" ].
Proof. eexists. split; [vm_compute; reflexivity|reflexivity]. Qed.

Lemma C2_cleanup_witness :
  exists p w1 r w',
    prepare (Sample.env Sample.pip_examplepkg Sample.publish_ok)
            Sample.event_examplepkg Sample.tmp_only = (Val p, w1) /\
    lambda_handler (Sample.env Sample.pip_examplepkg Sample.publish_ok)
                   Sample.event_examplepkg Sample.tmp_only = (Returned r, w') /\
    ((StatusCode r = 200%Z /\
      artifacts_deleted (Sample.env Sample.pip_examplepkg Sample.publish_ok)
                        p w') \/
     (StatusCode r = 500%Z /\ fs w' = fs w1)).
Proof.
  eexists _, _, _, _. split; [vm_compute; reflexivity|].
  split; [vm_compute; reflexivity|].
  apply (C2_cleanup_only_after_successful_publish
           (Sample.env Sample.pip_examplepkg Sample.publish_ok)
           Sample.event_examplepkg Sample.tmp_only);
    vm_compute; reflexivity.
Defined.

(** ** Version and layer name: claims C3, C4 and C7 *)



(** The wheel file is called [examplepkg.whl]: the handler does not answer
    at all, it raises [IndexError]. *)
Lemma C4_name_without_hyphen_is_not_handled :
  exists w1 w',
    download (Sample.env Sample.pip_no_hyphen Sample.publish_ok)
             Sample.event_examplepkg Sample.tmp_only
    = (Val ("examplepkg", EmptyString, "examplepkg.whl"), w1) /\
    length (PyStr.split "-" "examplepkg.whl") < 2 /\
    lambda_handler (Sample.env Sample.pip_no_hyphen Sample.publish_ok)
                   Sample.event_examplepkg Sample.tmp_only
    = (Raised IndexError, w') /\
    ~ handled_not_found
        (lambda_handler (Sample.env Sample.pip_no_hyphen Sample.publish_ok)
                        Sample.event_examplepkg Sample.tmp_only).1.
Proof.
  eexists _, _. split; [vm_compute; reflexivity|].
  split; [vm_compute; lia|]. split; [vm_compute; reflexivity|].
  intros (r & Hr & _). vm_compute in Hr. discriminate Hr.
Qed.

(** C4, as the handler has it.  When the wheel file found in the download
    folder has fewer than two hyphen-delimited fields, [SplitFileName[1]]
    raises [IndexError]; nothing catches it, so the handler ends with that
    exception, in the state the download left, and returns no response. *)
Theorem C4_too_few_fields_raise_IndexError
    env event w ModuleName CustomLayerName WheelFileName w1 :
  download env event w = (Val (ModuleName, CustomLayerName, WheelFileName), w1) ->
  length (PyStr.split "-" WheelFileName) < 2 ->
  lambda_handler env event w = (Raised IndexError, w1).
Proof.
  intros Hdl Hlen. apply handler_prepare_Exc. unfold prepare.
  rewrite (bind_Val _ _ _ _ _ Hdl). apply bind_Exc.
  unfold pure_res, ask, module_version, PyStr.getitem.
  by rewrite lookup_ge_None_2 by lia.
Qed.

Lemma C4_too_few_fields_witness :
  exists w1,
    download (Sample.env Sample.pip_no_hyphen Sample.publish_ok)
             Sample.event_examplepkg Sample.tmp_only
    = (Val ("examplepkg", EmptyString, "examplepkg.whl"), w1) /\
    lambda_handler (Sample.env Sample.pip_no_hyphen Sample.publish_ok)
                   Sample.event_examplepkg Sample.tmp_only
    = (Raised IndexError, w1).
Proof.
  eexists. split; [vm_compute; reflexivity|].
  apply (C4_too_few_fields_raise_IndexError
           (Sample.env Sample.pip_no_hyphen Sample.publish_ok)
           Sample.event_examplepkg Sample.tmp_only
           "examplepkg" EmptyString "examplepkg.whl").
  - vm_compute; reflexivity.
  - vm_compute; lia.
Defined.

(** C7.  When the handler has reached the publish step with a boto3
    client at hand and the event supplies a custom layer name, the one
    publish call the handler makes is under exactly that name, and the
    generated name is not used.  The handler takes the empty string for no
    custom name (line 203, under the comment "Check if a custom layer name
    was provided"): with [CustomLayerName] absent or empty, the publish call
    is made under the generated name. *)
Theorem C7_custom_name_is_published_verbatim env event w p w1 :
  prepare env event w = (Val p, w1) ->
  boto3_client env = None ->
  (forall CustomLayerName,
     event !! "CustomLayerName" = Some CustomLayerName ->
     CustomLayerName <> EmptyString ->
     LayerName <$> published (lambda_handler env event w).2 =
       (LayerName <$> published w) ++ [CustomLayerName]) /\
  (event !! "CustomLayerName" = None \/
   event !! "CustomLayerName" = Some EmptyString ->
   LayerName <$> published (lambda_handler env event w).2 =
     (LayerName <$> published w) ++
     [ p_ModuleName p +:+ "_" +:+ PyStr.remove_char "." (p_ModuleVersion p)
       +:+ "_py" +:+ PythonVersionNoDot env ]).
Proof.
  intros Hprep Hboto.
  destruct (prepare_inv _ _ _ _ _ Hprep) as (w0 & Hdl & _).
  destruct (download_inv _ _ _ _ _ _ _ Hdl) as (_ & Hcn & _).
  rewrite (handler_publish_call _ _ _ _ _ Hprep Hboto), fmap_app.
  simpl. unfold new_layer_name. split.
  - intros CustomLayerName Hcustom Hne. rewrite Hcustom in Hcn. simpl in Hcn.
    rewrite Hcn. by rewrite decide_False.
  - intros [Hcustom|Hcustom]; rewrite Hcustom in Hcn; simpl in Hcn;
      rewrite Hcn; by rewrite decide_True.
Qed.

Lemma C7_custom_name_witness :
  exists p w1,
    prepare (Sample.env Sample.pip_examplepkg Sample.publish_ok)
            (Sample.event_custom "my-layer") Sample.tmp_only = (Val p, w1) /\
    LayerName <$>
      published (lambda_handler
                   (Sample.env Sample.pip_examplepkg Sample.publish_ok)
                   (Sample.event_custom "my-layer") Sample.tmp_only).2
    = [ "my-layer" ].
Proof.
  eexists _, _. split; [vm_compute; reflexivity|].
  destruct (C7_custom_name_is_published_verbatim
              (Sample.env Sample.pip_examplepkg Sample.publish_ok)
              (Sample.event_custom "my-layer") Sample.tmp_only _ _
              ltac:(vm_compute; reflexivity) eq_refl) as [Hcustom _].
  apply (Hcustom "my-layer").
  - vm_compute; reflexivity.
  - discriminate.
Defined.

(** ** The answers of the handler: claims C5, C6 and C10 *)

(** C6.  When the handler has reached the publish step with a boto3 client
    at hand and [publish_layer_version] raises an exception whose text is
    [text], the handler returns status 500, error kind [ServiceException],
    and a payload that ends with [text]. *)
Theorem C6_publish_error_gives_500 env event w p w1 text :
  prepare env event w = (Val p, w1) ->
  boto3_client env = None ->
  publish_layer_version env
    (publish_call env
       (new_layer_name env (p_ModuleName p) (p_ModuleVersion p)
                       (p_CustomLayerName p))
       (p_WheelContent p)) = Some text ->
  (lambda_handler env event w).1 =
    Returned (mkResponse 500 (Some "ServiceException")
      ("There was a problem when calling the Python boto3 publish_layer_version function: "
       +:+ text)).
Proof.
  intros Hprep Hboto Hpub. rewrite (handler_after_prepare _ _ _ _ _ Hprep).
  unfold publish, try_publish. by rewrite Hboto, Hpub.
Qed.

Lemma C6_publish_denied_witness :
  (lambda_handler (Sample.env Sample.pip_examplepkg Sample.publish_denied)
                  Sample.event_examplepkg Sample.tmp_only).1 =
    Returned (mkResponse 500 (Some "ServiceException")
      "There was a problem when calling the Python boto3 publish_layer_version function: An error occurred (AccessDeniedException)").
Proof.
  refine (C6_publish_error_gives_500
            (Sample.env Sample.pip_examplepkg Sample.publish_denied)
            Sample.event_examplepkg Sample.tmp_only _ _
            "An error occurred (AccessDeniedException)" _ _ _).
  - vm_compute; reflexivity.
  - reflexivity.
  - reflexivity.
Defined.

(** The same answer comes back when [boto3.client('lambda')] itself
    raises. *)
Lemma client_error_gives_500 env event w p w1 text :
  prepare env event w = (Val p, w1) ->
  boto3_client env = Some text ->
  lambda_handler env event w =
    (Returned (mkResponse 500 (Some "ServiceException")
       ("There was a problem when calling the Python boto3 publish_layer_version function: "
        +:+ text)), w1).
Proof.
  intros Hprep Hboto. rewrite (handler_after_prepare _ _ _ _ _ Hprep).
  unfold publish, try_publish. by rewrite Hboto.
Qed.

(** No [ModuleName] in the event: 404. *)
Lemma missing_ModuleName_gives_404 env event w :
  event !! "ModuleName" = None ->
  lambda_handler env event w =
    (Returned (NotFound
       "No argument for ModuleName was provided in the context name: \nError: 'ModuleName'"),
     w).
Proof.
  intros Hev. apply handler_prepare_Return. unfold prepare, download.
  do 2 apply bind_Return. unfold get_ModuleName. by rewrite Hev.
Qed.

(** pip exits with something other than 0: 404. *)
Lemma pip_failure_gives_404 env event w ModuleName w1 output fs2 :
  event !! "ModuleName" = Some ModuleName ->
  make_folders ModuleName w = (Val tt, w1) ->
  pip_download env ModuleName (TmpModuleFolder ModuleName)
               TmpPipCacheFolder (fs w1) = (output, fs2) ->
  returncode output <> 0%Z ->
  lambda_handler env event w =
    (Returned (NotFound ("pip was not able to find a module for "
                         +:+ ModuleName +:+ "\nError:" +:+ stderr_str output)),
     set_fs w1 fs2).
Proof.
  intros Hev Hmk Hpip Hcode. apply handler_prepare_Return.
  unfold prepare, download. apply bind_Return.
  unfold get_ModuleName. rewrite Hev.
  unfold mbind at 1, M_bind at 1, mret, M_ret.
  assert (exists cn, get_CustomLayerName event w = (Val cn, w)) as [cn Hcn].
  { unfold get_CustomLayerName. destruct (event !! "CustomLayerName"); eauto. }
  rewrite (bind_Val _ _ _ _ _ Hcn), (bind_Val _ _ _ _ _ Hmk).
  apply bind_Return. unfold run_pip. rewrite Hpip. by rewrite decide_False.
Qed.

(** pip exits with 0 and no name in the download folder passes the test of
    line 121: 404. *)
Lemma no_wheel_gives_404 env event w ModuleName w1 output fs2 files :
  event !! "ModuleName" = Some ModuleName ->
  make_folders ModuleName w = (Val tt, w1) ->
  pip_download env ModuleName (TmpModuleFolder ModuleName)
               TmpPipCacheFolder (fs w1) = (output, fs2) ->
  returncode output = 0%Z ->
  Os.listdir (TmpModuleFolder ModuleName) fs2 = Ok files ->
  Forall (fun file => is_wheel_name file = false) files ->
  lambda_handler env event w =
    (Returned (NotFound ("pip was not able to download a wheel file for "
                         +:+ ModuleName)),
     set_fs w1 fs2).
Proof.
  intros Hev Hmk Hpip Hcode Hls Hnone. apply handler_prepare_Return.
  unfold prepare. apply bind_Return.
  rewrite (download_run _ _ _ _ _ _ _ _ Hev Hmk Hpip Hcode Hls).
  by rewrite (first_wheel_none _ Hnone).
Qed.

(** C10.  pip has exited with 0 and the download folder lists [files].
    If no listed name ends in [.whl] in any mix of case, the handler returns
    the 404 of the not-found class.  If [file] is the first listed name that
    does, the download step ends with [file] as the wheel file, whatever
    comes after it in the listing.  And whenever the download step ends with
    a wheel file, that name is in the listing and ends in [.whl]. *)
Theorem C10_first_whl_name_or_404
    env event w ModuleName w1 output fs2 files :
  event !! "ModuleName" = Some ModuleName ->
  make_folders ModuleName w = (Val tt, w1) ->
  pip_download env ModuleName (TmpModuleFolder ModuleName)
               TmpPipCacheFolder (fs w1) = (output, fs2) ->
  returncode output = 0%Z ->
  Os.listdir (TmpModuleFolder ModuleName) fs2 = Ok files ->
  (Forall (fun file => ~ ends_in_whl file) files ->
   lambda_handler env event w =
     (Returned (NotFound ("pip was not able to download a wheel file for "
                          +:+ ModuleName)),
      set_fs w1 fs2)) /\
  (forall before file after,
     files = before ++ file :: after ->
     Forall (fun f => ~ ends_in_whl f) before ->
     ends_in_whl file ->
     download env event w =
       (Val (ModuleName, default EmptyString (event !! "CustomLayerName"),
             file),
        set_fs w1 fs2)) /\
  (forall CustomLayerName WheelFileName w2,
     download env event w =
       (Val (ModuleName, CustomLayerName, WheelFileName), w2) ->
     WheelFileName ∈ files /\ ends_in_whl WheelFileName).
Proof.
  intros Hev Hmk Hpip Hcode Hls.
  assert (forall l, Forall (fun f => ~ ends_in_whl f) l ->
                    Forall (fun f => is_wheel_name f = false) l) as Hnot.
  { intros l Hl. eapply Forall_impl; [exact Hl|]. intros f Hf.
    destruct (is_wheel_name f) eqn:Hw; [|done].
    by apply is_wheel_name_spec in Hw. }
  split; [|split].
  - intros Hnone. eapply no_wheel_gives_404; eauto.
  - intros before file after -> Hbefore Hfile.
    apply is_wheel_name_spec in Hfile as Hw.
    rewrite (download_run _ _ _ _ _ _ _ _ Hev Hmk Hpip Hcode Hls).
    rewrite (first_wheel_first _ _ _ (Hnot _ Hbefore) Hw).
    by rewrite decide_False by by apply is_wheel_name_nonempty.
  - intros cn whl w2 Hdl.
    rewrite (download_run _ _ _ _ _ _ _ _ Hev Hmk Hpip Hcode Hls) in Hdl.
    destruct (decide (first_wheel files = EmptyString)) as [|Hne]; [done|].
    injection Hdl as _ <- _.
    destruct (first_wheel_found _ Hne) as [Hw Hin].
    split; [done|]. by apply is_wheel_name_spec.
Qed.

Lemma C10_listing_witness :
  (lambda_handler (Sample.env Sample.pip_sdist Sample.publish_ok)
                  Sample.event_examplepkg Sample.tmp_only).1
  = Returned (NotFound
      "pip was not able to download a wheel file for examplepkg") /\
  (download (Sample.env Sample.pip_several Sample.publish_ok)
            Sample.event_examplepkg Sample.tmp_only).1
  = Val ("examplepkg", EmptyString, "examplepkg-1.2.3-py3-none-any.WHL").
Proof.
  assert (forall file, is_wheel_name file = false -> ~ ends_in_whl file)
    as Hnot.
  { intros file Hfile Hends. apply is_wheel_name_spec in Hends. congruence. }
  split.
  - refine (f_equal fst
      (proj1 (C10_first_whl_name_or_404
                (Sample.env Sample.pip_sdist Sample.publish_ok)
                Sample.event_examplepkg Sample.tmp_only "examplepkg"
                _ _ _ ["examplepkg-1.2.3.tar.gz"] _ _ _ _ _) _)).
    + vm_compute; reflexivity.
    + vm_compute; reflexivity.
    + vm_compute; reflexivity.
    + reflexivity.
    + vm_compute; reflexivity.
    + repeat constructor. apply Hnot. vm_compute; reflexivity.
  - refine (f_equal fst
      (proj1 (proj2 (C10_first_whl_name_or_404
                (Sample.env Sample.pip_several Sample.publish_ok)
                Sample.event_examplepkg Sample.tmp_only "examplepkg"
                _ _ _
                ["README.txt"; "examplepkg-1.2.3-py3-none-any.WHL";
                 "other-0.1-py3-none-any.whl"] _ _ _ _ _))
         ["README.txt"] "examplepkg-1.2.3-py3-none-any.WHL"
         ["other-0.1-py3-none-any.whl"] _ _ _)).
    + vm_compute; reflexivity.
    + vm_compute; reflexivity.
    + vm_compute; reflexivity.
    + reflexivity.
    + vm_compute; reflexivity.
    + reflexivity.
    + repeat constructor. apply Hnot. vm_compute; reflexivity.
    + exists "examplepkg-1.2.3-py3-none-any", ".WHL". split; reflexivity.
Defined.

(** *** Where a 404 can come from *)

Lemma first_wheel_empty files :
  first_wheel files = EmptyString ->
  Forall (fun file => is_wheel_name file = false) files.
Proof.
  induction files as [|file files IH]; simpl; [constructor|].
  destruct (is_wheel_name file) eqn:Hfile.
  - intros ->. done.
  - intros Hrest. constructor; [done|by apply IH].
Qed.

Lemma build_zip_not_Return env ModuleName WheelFileName ModuleVersion w r w' :
  build_zip env ModuleName WheelFileName ModuleVersion w <> (Return r, w').
Proof.
  unfold build_zip. intros H.
  apply bind_Return_inv in H as [H|(InZipFile & wa & _ & H)];
    [by apply ask_not_Return in H|].
  apply bind_Return_inv in H as [H|(OutZipFile & wb & _ & H)].
  { by destruct (Os.ZipFile_w _ (fs wa)) as [[? ?]|]. }
  apply bind_Return_inv in H as [H|(st & wc & _ & H)];
    [by apply pure_res_not_Return in H|].
  apply bind_Return_inv in H as [H|(? & wd & _ & H)];
    [by apply change_not_Return in H|].
  apply bind_Return_inv in H as [H|(? & we & _ & H)];
    by apply change_not_Return in H.
Qed.

(** The three places where [download] returns, each with the 404 of the
    not-found class. *)
Lemma download_Return_inv env event w r w' :
  download env event w = (Return r, w') ->
  FunctionError r = Some "ResourceNotFoundException" /\
  StatusCode r = 404%Z /\
  (event !! "ModuleName" = None \/
   exists ModuleName w1 output,
     event !! "ModuleName" = Some ModuleName /\
     make_folders ModuleName w = (Val tt, w1) /\
     pip_download env ModuleName (TmpModuleFolder ModuleName)
                  TmpPipCacheFolder (fs w1) = (output, fs w') /\
     (returncode output <> 0%Z \/
      returncode output = 0%Z /\
      exists files,
        Os.listdir (TmpModuleFolder ModuleName) (fs w') = Ok files /\
        Forall (fun file => is_wheel_name file = false) files)).
Proof.
  unfold download. intros H.
  apply bind_Return_inv in H as [H|(mn & wa & Hmn & H)].
  { unfold get_ModuleName in H. destruct (event !! "ModuleName"); [done|].
    injection H as <- <-. split; [done|]. split; [done|]. by left. }
  unfold get_ModuleName in Hmn.
  destruct (event !! "ModuleName") as [mn'|] eqn:Hev; [|done].
  injection Hmn as -> <-.
  apply bind_Return_inv in H as [H|(cn & wb & Hcn & H)].
  { unfold get_CustomLayerName in H. by destruct (event !! "CustomLayerName"). }
  assert (wb = w) as ->.
  { unfold get_CustomLayerName in Hcn.
    destruct (event !! "CustomLayerName"); by injection Hcn as _ <-. }
  apply bind_Return_inv in H as [H|([] & w1 & Hmk & H)];
    [by apply make_folders_not_Return in H|].
  apply bind_Return_inv in H as [H|([] & w2 & Hpip & H)].
  - unfold run_pip in H.
    destruct (pip_download _ _ _ _ _) as [output fs2] eqn:Hrun.
    destruct (decide (returncode output = 0%Z)) as [|Hcode]; [done|].
    injection H as <- <-. split; [done|]. split; [done|]. right.
    exists mn, w1, output. simpl. eauto.
  - unfold run_pip in Hpip.
    destruct (pip_download _ _ _ _ _) as [output fs2] eqn:Hrun.
    destruct (decide (returncode output = 0%Z)) as [Hcode|]; [|done].
    injection Hpip as <-.
    apply bind_Return_inv in H as [H|(? & ? & _ & H)]; [|done].
    unfold find_wheel in H.
    apply bind_Return_inv in H as [H|(files & w3 & Hls & H)];
      [by apply ask_not_Return in H|].
    apply ask_Val_inv in Hls as [Hls ->].
    destruct (decide (first_wheel files = EmptyString)) as [Hnone|]; [|done].
    injection H as <- <-. split; [done|]. split; [done|]. right.
    exists mn, w1, output. simpl. split; [done|]. split; [done|].
    split; [done|]. right. split; [done|].
    exists files. split; [done|]. by apply first_wheel_empty.
Qed.

(** A 404 comes from nowhere else: the event has no [ModuleName], or pip
    exited with something other than 0, or pip exited with 0 and no name in
    the download folder ends in [.whl]. *)
Lemma status_404_only_from_download env event w r w' :
  lambda_handler env event w = (Returned r, w') ->
  StatusCode r = 404%Z ->
  download env event w = (Return r, w').
Proof.
  unfold lambda_handler. intros Hrun Hcode.
  destruct ((prepare env event ≫= publish env) w) as [[r0|r0|e] wf] eqn:Hall;
    [| |done]; injection Hrun as -> ->.
  - apply bind_Val_inv in Hall as (p & w1 & _ & Hpub). exfalso.
    unfold publish in Hpub. destruct (try_publish _ _ _) as [[text|] w2].
    + done.
    + unfold mbind, M_bind, change in Hpub.
      destruct (Os.remove _ (fs w2)); [|done]. simpl in Hpub.
      destruct (Os.rmdir _ _); [|done].
      injection Hpub as <- _. done.
  - apply bind_Return_inv in Hall as [Hprep|(p & w1 & _ & Hpub)].
    + unfold prepare in Hprep.
      apply bind_Return_inv in Hprep as [Hdl|([[mn cn] whl] & w0 & _ & H)];
        [done|]. exfalso.
      apply bind_Return_inv in H as [H|(ver & wa & _ & H)];
        [by apply pure_res_not_Return in H|].
      apply bind_Return_inv in H as [H|(? & wb & _ & H)];
        [by apply build_zip_not_Return in H|].
      apply bind_Return_inv in H as [H|(? & wc & _ & H)];
        [by apply ask_not_Return in H|done].
    + exfalso. unfold publish in Hpub.
      destruct (try_publish _ _ _) as [[text|] w2].
      * injection Hpub as <- _. done.
      * unfold mbind, M_bind, change in Hpub.
        destruct (Os.remove _ (fs w2)); [|done]. simpl in Hpub.
        by destruct (Os.rmdir _ _).
Qed.

(** C5.  Each not-found condition gives the 404 of the not-found class,
    and a 404 is returned in no other case.  An event without [ModuleName]
    is answered with it (lines 43-52).  Once the scratch folders are made,
    a resolver that exits with a non-zero code gives it (lines 107-116), and
    so does a resolver that exits with 0 and leaves no name ending in [.whl]
    in the download folder (lines 119-135).  The handler passes the module
    identifier to the resolver as it is: an empty identifier is among the
    requirements pip exits non-zero on, so it gives the 404 as a failing
    resolver does.  And whenever the handler returns status 404, the error
    kind is [ResourceNotFoundException] and one of these conditions
    holds. *)
Theorem C5_not_found_is_404_and_404_is_not_found env event w :
  (event !! "ModuleName" = None ->
   handled_not_found (lambda_handler env event w).1) /\
  (forall ModuleName w1,
     event !! "ModuleName" = Some ModuleName ->
     make_folders ModuleName w = (Val tt, w1) ->
     (returncode (pip_run env ModuleName w1).1 <> 0%Z ->
      handled_not_found (lambda_handler env event w).1) /\
     (forall files,
        returncode (pip_run env ModuleName w1).1 = 0%Z ->
        Os.listdir (TmpModuleFolder ModuleName) (pip_run env ModuleName w1).2
        = Ok files ->
        Forall (fun file => ~ ends_in_whl file) files ->
        handled_not_found (lambda_handler env event w).1)) /\
  (forall w1,
     event !! "ModuleName" = Some EmptyString ->
     make_folders EmptyString w = (Val tt, w1) ->
     returncode (pip_run env EmptyString w1).1 <> 0%Z ->
     handled_not_found (lambda_handler env event w).1) /\
  (forall r w',
     lambda_handler env event w = (Returned r, w') ->
     StatusCode r = 404%Z ->
     FunctionError r = Some "ResourceNotFoundException" /\
     (event !! "ModuleName" = None \/
      exists ModuleName w1,
        event !! "ModuleName" = Some ModuleName /\
        make_folders ModuleName w = (Val tt, w1) /\
        (returncode (pip_run env ModuleName w1).1 <> 0%Z \/
         returncode (pip_run env ModuleName w1).1 = 0%Z /\
         exists files,
           Os.listdir (TmpModuleFolder ModuleName)
                      (pip_run env ModuleName w1).2 = Ok files /\
           Forall (fun file => ~ ends_in_whl file) files))).
Proof.
  assert (forall ModuleName w1,
            event !! "ModuleName" = Some ModuleName ->
            make_folders ModuleName w = (Val tt, w1) ->
            returncode (pip_run env ModuleName w1).1 <> 0%Z ->
            handled_not_found (lambda_handler env event w).1) as Hfails.
  { intros mn w1 Hev Hmk Hcode. unfold pip_run in Hcode.
    destruct (pip_download env mn (TmpModuleFolder mn) TmpPipCacheFolder
                           (fs w1)) as [output fs2] eqn:Hpip.
    rewrite (pip_failure_gives_404 _ _ _ _ _ _ _ Hev Hmk Hpip Hcode).
    eexists. by split. }
  split; [|split; [|split]].
  - intros Hmiss. rewrite (missing_ModuleName_gives_404 _ _ _ Hmiss).
    eexists. by split.
  - intros mn w1 Hev Hmk. split; [by apply Hfails|].
    intros files Hcode Hls Hnone. unfold pip_run in Hcode, Hls.
    destruct (pip_download env mn (TmpModuleFolder mn) TmpPipCacheFolder
                           (fs w1)) as [output fs2] eqn:Hpip.
    assert (Forall (fun f => is_wheel_name f = false) files) as Hnot.
    { eapply Forall_impl; [exact Hnone|]. intros f Hf.
      destruct (is_wheel_name f) eqn:Hw; [|done].
      by apply is_wheel_name_spec in Hw. }
    rewrite (no_wheel_gives_404 _ _ _ _ _ _ _ _ Hev Hmk Hpip Hcode Hls Hnot).
    eexists. by split.
  - intros w1 Hev Hmk Hcode. by apply (Hfails EmptyString w1).
  - intros r w' Hrun Hcode.
    apply status_404_only_from_download in Hrun; [|done].
    apply download_Return_inv in Hrun
      as (Hkind & _ & [Hmiss|(mn & w1 & output & Hev & Hmk & Hpip & Hwhy)]);
      [by split; [|left]|].
    split; [done|]. right. exists mn, w1. split; [done|]. split; [done|].
    unfold pip_run. rewrite Hpip. simpl.
    destruct Hwhy as [?|(? & files & ? & Hnone)]; [by left|right].
    split; [done|]. exists files. split; [done|].
    eapply Forall_impl; [exact Hnone|]. intros f Hf Hw.
    apply is_wheel_name_spec in Hw. congruence.
Qed.

(** The empty module identifier, with a pip that exits with 1 on it. *)
Lemma C5_empty_ModuleName_witness :
  Sample.event_empty_name !! "ModuleName" = Some EmptyString /\
  handled_not_found
    (lambda_handler (Sample.env MoreSample.pip_checks_name Sample.publish_ok)
                    Sample.event_empty_name Sample.tmp_only).1.
Proof.
  split; [vm_compute; reflexivity|].
  destruct (C5_not_found_is_404_and_404_is_not_found
              (Sample.env MoreSample.pip_checks_name Sample.publish_ok)
              Sample.event_empty_name Sample.tmp_only)
    as (_ & _ & Hempty & _).
  eapply Hempty.
  - vm_compute; reflexivity.
  - vm_compute; reflexivity.
  - vm_compute. discriminate.
Defined.

(** ** More about the relocation loop *)

Lemma append_inj_r (s a b : string) : s +:+ a = s +:+ b -> a = b.
Proof.
  induction s as [|c s IH]; [done|].
  rewrite !PyStrFacts.append_String. intros [= H]. by apply IH.
Qed.

Lemma last_index_is_last name (a : list Zip.Member) : forall j,
  Zip.last_index name a = Some j ->
  forall k later, j < k -> a !! k = Some later -> Zip.entry_name later <> name.
Proof.
  induction a as [|m a IH]; intros j; simpl; [done|].
  destruct (Zip.last_index name a) as [i|] eqn:Hi.
  - intros [= <-] k later Hk Hlater. destruct k as [|k]; [lia|].
    simpl in Hlater. apply (IH i eq_refl k later); [lia|done].
  - destruct (decide (Zip.entry_name m = name)); [|done].
    intros [= <-] k later Hk Hlater Hname. destruct k as [|k]; [lia|].
    simpl in Hlater.
    destruct (ZipFacts.last_index_ge a k later Hlater) as (i & Hi' & _).
    rewrite Hname in Hi'. congruence.
Qed.

(** X1.  When the relocation loop gets through, then for every member of
    the wheel, in order, it has written the content of the last member of
    the wheel that goes by the same name: a member of that name exists, no
    later member has the name, and its content is what is written. *)
Theorem relocate_writes_content_of_last_same_name
    prefix (source result : list Zip.Member) :
  Zip.relocate prefix source = Ok result ->
  Forall2
    (fun m m' =>
       exists j last,
         source !! j = Some last /\
         Zip.entry_name last = Zip.entry_name m /\
         Zip.m_data m' = Zip.m_data last /\
         forall k later,
           j < k -> source !! k = Some later ->
           Zip.entry_name later <> Zip.entry_name m)
    source result.
Proof.
  intros [-> _]%ZipFacts.relocate_Ok.
  apply Forall2_fmap_self. intros m [i Hi]%list_elem_of_lookup_1.
  destruct (ZipFacts.last_index_ge source i m Hi) as (j & Hj & _).
  destruct (ZipFacts.last_index_member _ _ _ Hj) as (last & Hlast & Hname).
  exists j, last. split; [done|]. split; [done|]. split.
  - simpl. unfold Zip.content_by_name. by rewrite Hj, Hlast.
  - by apply last_index_is_last.
Qed.

Lemma relocate_writes_content_of_last_witness :
  exists result,
    Zip.relocate Sample.prefix39 Sample.wheel_same_name = Ok result /\
    Forall2
      (fun m m' =>
         exists j last,
           Sample.wheel_same_name !! j = Some last /\
           Zip.entry_name last = Zip.entry_name m /\
           Zip.m_data m' = Zip.m_data last /\
           forall k later,
             j < k -> Sample.wheel_same_name !! k = Some later ->
             Zip.entry_name later <> Zip.entry_name m)
      Sample.wheel_same_name result.
Proof.
  eexists. split; [vm_compute; reflexivity|].
  apply (relocate_writes_content_of_last_same_name
           Sample.prefix39 Sample.wheel_same_name).
  vm_compute; reflexivity.
Defined.

(** X2.  When the relocation loop gets through, the names of the output
    are pairwise distinct exactly when the names zipfile reports for the
    members of the wheel are: putting the prefix in front neither merges
    two names nor splits one. *)
Theorem relocate_names_distinct_iff prefix (source result : list Zip.Member) :
  Zip.relocate prefix source = Ok result ->
  (NoDup (Zip.m_name <$> result) <-> NoDup (Zip.entry_name <$> source)).
Proof.
  intros [-> _]%ZipFacts.relocate_Ok.
  rewrite <- list_fmap_compose.
  assert (Zip.m_name ∘ Zip.relocated prefix source
          = (fun name => prefix +:+ "/" +:+ name) ∘ Zip.entry_name)
    as -> by done.
  rewrite list_fmap_compose. apply NoDup_fmap.
  intros a b Hab. by do 2 apply append_inj_r in Hab.
Qed.

Lemma relocate_names_distinct_witness :
  exists result,
    Zip.relocate Sample.prefix39 Sample.wheel = Ok result /\
    (NoDup (Zip.m_name <$> result) <->
     NoDup (Zip.entry_name <$> Sample.wheel)).
Proof.
  eexists. split; [vm_compute; reflexivity|].
  apply (relocate_names_distinct_iff Sample.prefix39 Sample.wheel).
  vm_compute; reflexivity.
Defined.

(** ** More about the version parse and the layer name *)

Module PyStrMore.
Import PyStr.

Lemma split_not_nil sep s : split sep s <> [].
Proof.
  destruct s as [|c s]; simpl; [done|].
  destruct (Ascii.eqb c sep); [done|]. by destruct (split sep s).
Qed.

Lemma join_String sep c field fields :
  join sep (String c field :: fields) = String c (join sep (field :: fields)).
Proof. by destruct fields. Qed.

(** Joining what [split] gives restores the string. *)
Lemma join_split sep s : join sep (split sep s) = s.
Proof.
  induction s as [|c s IH]; simpl; [done|].
  destruct (Ascii.eqb c sep) eqn:Hc.
  - apply Ascii.eqb_eq in Hc as ->.
    pose proof (split_not_nil sep s) as Hne.
    destruct (split sep s) as [|f fs] eqn:Hs; [done|].
    change (join sep (EmptyString :: f :: fs))
      with (EmptyString +:+ String sep (join sep (f :: fs))).
    by rewrite PyStrFacts.append_empty_l, IH.
  - pose proof (split_not_nil sep s) as Hne.
    destruct (split sep s) as [|f fs] eqn:Hs; [done|].
    by rewrite join_String, IH.
Qed.

(** No field holds the separator. *)
Lemma split_fields_free sep s :
  Forall (fun field => contains sep field = false) (split sep s).
Proof.
  induction s as [|c s IH]; simpl; [by repeat constructor|].
  destruct (Ascii.eqb c sep) eqn:Hc; [by constructor|].
  destruct (split sep s) as [|f fs]; [repeat constructor; simpl; by rewrite Hc|].
  apply Forall_cons in IH as [Hf Hfs]. constructor; [|done].
  simpl. by rewrite Hc, Hf.
Qed.

Lemma contains_app c a b :
  contains c (a +:+ b) = (contains c a || contains c b)%bool.
Proof.
  induction a as [|d a IH]; [done|].
  rewrite PyStrFacts.append_String. simpl. rewrite IH. by rewrite orb_assoc.
Qed.

Lemma digits_no_dot d : contains "." (NilEmpty.string_of_uint d) = false.
Proof. induction d; simpl; done. Qed.

Lemma str_of_nat_no_dot n : contains "." (str_of_nat n) = false.
Proof.
  unfold str_of_nat, NilZero.string_of_uint.
  destruct (Nat.to_uint n) eqn:Hd; try (rewrite <- Hd; apply digits_no_dot).
  done.
Qed.

End PyStrMore.

(** X3.  The version parse of lines 144-146 has two outcomes and no third:
    a file name without a hyphen raises [IndexError]; any other file name
    is [name-version] or [name-version-tags...] with hyphen-free fields, and
    [version] is what comes out. *)
Theorem module_version_second_field_or_IndexError WheelFileName :
  (PyStr.contains "-" WheelFileName = false /\
   module_version WheelFileName = Raise IndexError) \/
  (exists name version tags,
     WheelFileName = PyStr.join "-" (name :: version :: tags) /\
     Forall (fun field => PyStr.contains "-" field = false)
            (name :: version :: tags) /\
     module_version WheelFileName = Ok version).
Proof.
  unfold module_version.
  pose proof (PyStrMore.join_split "-" WheelFileName) as Hjoin.
  pose proof (PyStrMore.split_fields_free "-" WheelFileName) as Hfree.
  pose proof (PyStrMore.split_not_nil "-" WheelFileName) as Hne.
  destruct (PyStr.split "-" WheelFileName) as [|name [|version tags]];
    [done| |].
  - left. simpl in Hjoin. subst name.
    apply Forall_cons in Hfree as [Hfree _]. done.
  - right. by exists name, version, tags.
Qed.

(** X4.  The generated layer name (no custom name given) holds a dot
    exactly when the module name does: the dots of the version are dropped,
    the Python version is written without one, the module name is used as
    it is. *)
Theorem generated_layer_name_dots env ModuleName ModuleVersion :
  PyStr.contains "."
    (new_layer_name env ModuleName ModuleVersion EmptyString)
  = PyStr.contains "." ModuleName.
Proof.
  unfold new_layer_name, PythonVersionNoDot. rewrite decide_True by done.
  rewrite !PyStrMore.contains_app, PyStrFacts.remove_char_absent.
  rewrite !PyStrMore.str_of_nat_no_dot. simpl.
  by rewrite !orb_false_r.
Qed.

(** ** More about the scratch folders *)

Module OsFilterFacts.
Import Os.

Lemma strip_prefix_self p : strip_prefix p p = Some [].
Proof. induction p as [|c p IH]; simpl; [done|]. by rewrite decide_True. Qed.

Lemma is_below_self p : is_below p p = false.
Proof. unfold is_below. by rewrite strip_prefix_self. Qed.



Lemma find_node_app_new (fs : FS) p n :
  find_node fs p = None -> find_node (fs ++ [(p, n)]) p = Some n.
Proof.
  induction fs as [|[q' n'] fs IH]; simpl.
  - intros _. by rewrite decide_True.
  - destruct (decide (q' = p)); [done|apply IH].
Qed.



End OsFilterFacts.


(** That the place a path string resolves to is a directory is not
    enough: the empty string resolves to the root, and [os.mkdir] refuses
    it with [FileNotFoundError], which is not caught. *)
Lemma make_folder_of_empty_path_raises :
  Os.node_at (fs Sample.tmp_only) (Os.resolve EmptyString) = Some Os.Dir /\
  make_folder EmptyString Sample.tmp_only
  = (Exc FileNotFoundError, Sample.tmp_only).
Proof. split; vm_compute; reflexivity. Qed.


(** ** The two files of the relocation *)

Module PathFacts.
Import PyStr.

Lemma append_assoc (a b c : string) : a +:+ (b +:+ c) = (a +:+ b) +:+ c.
Proof.
  induction a as [|x a IH]; [done|].
  rewrite !PyStrFacts.append_String. by rewrite IH.
Qed.

Lemma length_append (a b : string) :
  String.length (a +:+ b) = String.length a + String.length b.
Proof.
  induction a as [|x a IH]; [done|].
  rewrite PyStrFacts.append_String. simpl. by rewrite IH.
Qed.

Lemma length_lower s : String.length (lower s) = String.length s.
Proof. induction s as [|c s IH]; simpl; [done|]. by rewrite IH. Qed.

(** Two ways of cutting one string into a head and a tail of equal tail
    length cut off the same tail. *)
Lemma same_tail (a b x y : string) :
  a +:+ x = b +:+ y -> String.length x = String.length y -> x = y.
Proof.
  intros Heq Hlen.
  assert (String.length a = String.length b) as Hab.
  { apply (f_equal String.length) in Heq. rewrite !length_append in Heq. lia. }
  clear Hlen. revert b Heq Hab.
  induction a as [|c a IH]; intros [|d b]; try done.
  rewrite !PyStrFacts.append_String. intros [= _ Heq] [= Hab]. by apply (IH b).
Qed.

(** Appending text that holds no separator lengthens the last field only. *)
Lemma split_append sep s t :
  contains sep t = false ->
  exists init field,
    split sep s = init ++ [field] /\
    split sep (s +:+ t) = init ++ [field +:+ t].
Proof.
  intros Ht. induction s as [|c s (init & field & Hs & Hst)].
  - exists [], EmptyString. split; [done|].
    by rewrite PyStrFacts.append_empty_l, PyStrFacts.split_without_sep.
  - rewrite PyStrFacts.append_String. simpl. rewrite Hs, Hst.
    destruct (Ascii.eqb c sep).
    + by exists (EmptyString :: init), field.
    + destruct init as [|i0 init]; simpl.
      * by exists [], (String c field).
      * by exists (String c i0 :: init), field.
Qed.

Lemma foldl_snoc {X Y} (f : X -> Y -> X) x l y :
  foldl f x (l ++ [y]) = f (foldl f x l) y.
Proof. revert x. induction l as [|z l IH]; intros x; simpl; [done|apply IH]. Qed.

(** The last component of a path that ends in at least three characters
    without a slash ends in these characters. *)
Lemma resolve_last s a b c t :
  contains "/" (String a (String b (String c t))) = false ->
  exists field,
    last (Os.resolve (s +:+ String a (String b (String c t))))
    = Some (field +:+ String a (String b (String c t))).
Proof.
  intros Ht. destruct (split_append "/" s _ Ht) as (init & field & _ & Hst).
  exists field. unfold Os.resolve, Os.names.
  rewrite Hst, filter_app, filter_cons.
  assert (String.length (field +:+ String a (String b (String c t))) >= 3)
    as Hlen.
  { rewrite length_append. simpl. lia. }
  rewrite decide_True.
  - rewrite filter_nil, foldl_snoc. unfold Os.step.
    rewrite decide_False, decide_False.
    + apply last_snoc.
    + intros Heq. rewrite Heq in Hlen. simpl in Hlen. lia.
    + intros Heq. rewrite Heq in Hlen. simpl in Hlen. lia.
  - intros Heq. rewrite Heq in Hlen. simpl in Hlen. lia.
Qed.

(** An extension that lower-cases to [.whl] has four characters, no slash,
    and is not [.zip]. *)
Lemma whl_extension ext :
  lower ext = ".whl" ->
  exists a b c t, ext = String a (String b (String c t)) /\
                  String.length ext = 4 /\
                  contains "/" ext = false /\
                  ext <> ".zip".
Proof.
  intros Hext.
  assert (String.length ext = 4) as Hlen.
  { by rewrite <- length_lower, Hext. }
  destruct ext as [|a [|b [|c [|d [|? ?]]]]]; try done.
  exists a, b, c, (String d EmptyString).
  split; [done|]. split; [done|]. split; [|by intros [= -> -> -> ->]].
  simpl in Hext. injection Hext as Ha Hb Hc Hd. simpl.
  destruct (Ascii.eqb a "/") eqn:Ea; [apply Ascii.eqb_eq in Ea as ->; done|].
  destruct (Ascii.eqb b "/") eqn:Eb; [apply Ascii.eqb_eq in Eb as ->; done|].
  destruct (Ascii.eqb c "/") eqn:Ec; [apply Ascii.eqb_eq in Ec as ->; done|].
  destruct (Ascii.eqb d "/") eqn:Ed; [apply Ascii.eqb_eq in Ed as ->; done|].
  done.
Qed.

End PathFacts.

(** X7.  The new zip file is never the wheel file: whatever the module
    name, the version and the clock, the two path strings of lines 165 and
    169 name different files when the wheel name passed the test of line
    121.  So opening the new zip for writing (line 176) never empties the
    wheel the loop is about to read. *)
Theorem new_zip_is_not_the_wheel env ModuleName ModuleVersion WheelFileName :
  is_wheel_name WheelFileName = true ->
  Os.resolve (WheelFolderFileName ModuleName WheelFileName)
  <> Os.resolve (NewZipFolderFileName env ModuleName ModuleVersion).
Proof.
  intros (stem & ext & -> & Hext)%is_wheel_name_spec Hsame.
  destruct (PathFacts.whl_extension ext Hext)
    as (a & b & c & t & Hshape & Hlen & Hslash & Hzip).
  apply (f_equal last) in Hsame.
  unfold WheelFolderFileName, NewZipFolderFileName in Hsame.
  rewrite !PathFacts.append_assoc in Hsame. rewrite Hshape in Hsame, Hslash.
  destruct (PathFacts.resolve_last
              (TmpModuleFolder ModuleName +:+ "/" +:+ stem) a b c t Hslash)
    as (f1 & Hf1).
  rewrite !PathFacts.append_assoc in Hf1. rewrite Hf1 in Hsame.
  change ".zip" with (String "." (String "z" (String "i" "p"))) in Hsame.
  match type of Hsame with
  | _ = last (Os.resolve (?s +:+ _)) =>
      destruct (PathFacts.resolve_last s "." "z" "i" "p" eq_refl) as (f2 & Hf2)
  end.
  rewrite Hf2 in Hsame. injection Hsame as Hsame.
  apply PathFacts.same_tail in Hsame; [|by rewrite <- Hshape, Hlen].
  apply Hzip. by rewrite Hshape.
Qed.

Lemma new_zip_is_not_the_wheel_witness :
  Os.resolve
    (WheelFolderFileName "examplepkg" "examplepkg-1.2.3-py3-none-any.whl")
  <> Os.resolve
       (NewZipFolderFileName
          (Sample.env Sample.pip_examplepkg Sample.publish_ok)
          "examplepkg" "1.2.3").
Proof.
  apply (new_zip_is_not_the_wheel
           (Sample.env Sample.pip_examplepkg Sample.publish_ok)
           "examplepkg" "1.2.3" "examplepkg-1.2.3-py3-none-any.whl").
  vm_compute; reflexivity.
Defined.

(** ** What is left on disk when the publish step begins *)

Module OsGoneFacts.
Import Os.

Lemma find_node_overwrite_None p d (fs : FS) q :
  find_node fs q = None -> find_node (overwrite p d fs) q = None.
Proof.
  unfold overwrite. induction fs as [|[q' n'] fs IH]; simpl; [done|].
  destruct (decide (q' = q)) as [->|Hne]; [done|]. intros Hq.
  destruct (decide (q' = p)) as [->|]; simpl;
    rewrite decide_False by done; by apply IH.
Qed.

Lemma find_node_filter_None (P : Path * Node -> Prop)
    `{forall e, Decision (P e)} (fs : FS) q :
  find_node fs q = None -> find_node (filter P fs) q = None.
Proof.
  induction fs as [|[q' n'] fs IH]; simpl; [done|].
  rewrite filter_cons. destruct (decide (q' = q)) as [->|Hne]; [done|].
  intros Hq. destruct (decide (P (q', n'))); simpl; [|by apply IH].
  rewrite decide_False by done. by apply IH.
Qed.

(** After [shutil.rmtree] the folder and everything below it is gone, and
    what was gone before is still gone. *)
Lemma rmtree_gone path (fs fs' : FS) :
  rmtree path fs = Ok fs' ->
  resolve path <> [] ->
  find_node fs' (resolve path) = None /\
  (forall q, is_below (resolve path) q -> find_node fs' q = None) /\
  (forall q, find_node fs q = None -> find_node fs' q = None).
Proof.
  intros [_ ->]%OsFacts.rmtree_Ok_inv Hroot. split; [|split].
  - apply find_node_filter_None. rewrite OsFacts.find_node_unlink.
    by rewrite decide_True.
  - intros q Hq.
    destruct (find_node _ q) as [n|] eqn:Hn; [|done].
    apply OsMoreFacts.find_node_elem_of, list_elem_of_filter in Hn as [Hkeep _].
    by destruct Hkeep.
  - intros q Hq. apply find_node_filter_None.
    rewrite OsFacts.find_node_unlink. by destruct (decide (q = resolve path)).
Qed.

End OsGoneFacts.

(** The file system calls of [build_zip], one after the other. *)
Lemma build_zip_steps env ModuleName WheelFileName ModuleVersion w w' :
  build_zip env ModuleName WheelFileName ModuleVersion w = (Val tt, w') ->
  exists fs1 fs2 out,
    Os.open_truncate (NewZipFolderFileName env ModuleName ModuleVersion) (fs w)
    = Ok fs1 /\
    Os.remove (WheelFolderFileName ModuleName WheelFileName) fs1 = Ok fs2 /\
    Os.rmtree TmpPipCacheFolder
      (Os.ZipFile_close (NewZipFolderFileName env ModuleName ModuleVersion)
                        out fs2)
    = Ok (fs w').
Proof.
  unfold build_zip. intros H.
  apply bind_Val_inv in H as (InZipFile & wa & Hin & H).
  apply ask_Val_inv in Hin as [_ ->].
  apply bind_Val_inv in H as (OutZipFile & wb & Hout & H).
  unfold Os.ZipFile_w in Hout.
  destruct (Os.open_truncate _ (fs w)) as [fs1|] eqn:Hopen; [|done].
  simpl in Hout. injection Hout as _ <-.
  apply bind_Val_inv in H as (st & wc & Hloop & H).
  unfold pure_res in Hloop. apply ask_Val_inv in Hloop as [_ ->].
  apply bind_Val_inv in H as ([] & wd & Hrm & H).
  apply change_Val_inv in Hrm as (fs2 & Hrm & ->).
  apply bind_Val_inv in H as ([] & we & Hclose & H).
  apply change_Val_inv in Hclose as (fs3 & Hclose & ->).
  injection Hclose as <-.
  apply change_Val_inv in H as (fs4 & Htree & ->). simpl in *.
  by exists fs1, fs2, st.2.
Qed.

(** X8.  When the handler reaches the publish step, the wheel pip left and
    pip's cache folder with everything below it are gone, and the new zip
    file is on disk with the very content that is about to be published. *)
Theorem only_the_new_zip_is_left env event w p w1 :
  prepare env event w = (Val p, w1) ->
  Os.node_at (fs w1)
    (Os.resolve (WheelFolderFileName (p_ModuleName p) (p_WheelFileName p)))
  = None /\
  Os.node_at (fs w1) (Os.resolve TmpPipCacheFolder) = None /\
  (forall q, Os.is_below (Os.resolve TmpPipCacheFolder) q ->
     Os.find_node (fs w1) q = None) /\
  Os.read_file
    (NewZipFolderFileName env (p_ModuleName p) (p_ModuleVersion p)) (fs w1)
  = Ok (p_WheelContent p).
Proof.
  intros Hprep.
  destruct (prepare_inv _ _ _ _ _ Hprep) as (w0 & _ & _ & Hread).
  unfold prepare in Hprep.
  apply bind_Val_inv in Hprep as ([[mn cn] whl] & wa & _ & H).
  apply bind_Val_inv in H as (ver & wb & _ & H).
  apply bind_Val_inv in H as ([] & wc & Hzip & H).
  apply bind_Val_inv in H as (content & wd & Hask & H).
  apply ask_Val_inv in Hask as [_ ->]. injection H as <- <-. simpl in *.
  destruct (build_zip_steps _ _ _ _ _ _ Hzip) as (fs1 & fs2 & out & _ & Hrm & Htree).
  assert (Os.resolve TmpPipCacheFolder <> []) as Hcache by done.
  destruct (OsGoneFacts.rmtree_gone _ _ _ Htree Hcache)
    as (Hgone & Hbelow & Hstill).
  split; [|split; [|split]]; [| |done|done].
  - apply OsFacts.remove_gone in Hrm as [-> Hwheel].
    destruct (Os.resolve (WheelFolderFileName mn whl)) as [|c pw] eqn:Hpw;
      [done|]. simpl in *.
    by apply Hstill, OsGoneFacts.find_node_overwrite_None.
  - destruct (Os.resolve TmpPipCacheFolder) as [|c pc]; [done|]. done.
Qed.

Lemma only_the_new_zip_is_left_witness :
  exists p w1,
    prepare (Sample.env Sample.pip_examplepkg Sample.publish_ok)
            Sample.event_examplepkg Sample.tmp_only = (Val p, w1) /\
    fs w1 =
      [ (["tmp"], Os.Dir);
        (["tmp"; "LayerModule_examplepkg"], Os.Dir);
        (["tmp"; "LayerModule_examplepkg";
          "examplepkg_layer_ver_1.2.3_2020-05-01T12:00:00.zip"],
         Os.File (p_WheelContent p)) ] /\
    Os.node_at (fs w1)
      (Os.resolve (WheelFolderFileName (p_ModuleName p) (p_WheelFileName p)))
    = None.
Proof.
  eexists _, _. split; [vm_compute; reflexivity|]. split; [reflexivity|].
  refine (proj1 (only_the_new_zip_is_left
                   (Sample.env Sample.pip_examplepkg Sample.publish_ok)
                   Sample.event_examplepkg Sample.tmp_only _ _ _)).
  vm_compute; reflexivity.
Defined.

(** ** Every way the handler can end *)

Lemma bind_Exc_inv {A B} (m : M A) (k : A -> M B) w e w' :
  (m ≫= k) w = (Exc e, w') ->
  m w = (Exc e, w') \/ exists a w1, m w = (Val a, w1) /\ k a w1 = (Exc e, w').
Proof.
  unfold mbind, M_bind. destruct (m w) as [[a|r0|e0] w1]; [|done|].
  - intros Hk. right. by exists a, w1.
  - intros [= -> ->]. by left.
Qed.

Lemma ask_Exc_inv {A} (f : Os.FS -> res A) w e w' :
  ask f w = (Exc e, w') -> f (fs w) = Raise e.
Proof. unfold ask. destruct (f (fs w)); [done|]. by intros [= ->]. Qed.

Lemma change_Exc_inv (f : Os.FS -> res Os.FS) w e w' :
  change f w = (Exc e, w') -> f (fs w) = Raise e.
Proof. unfold change. destruct (f (fs w)); [done|]. by intros [= ->]. Qed.

Lemma prepare_Return_inv env event w r w' :
  prepare env event w = (Return r, w') -> download env event w = (Return r, w').
Proof.
  unfold prepare. intros Hprep.
  apply bind_Return_inv in Hprep as [Hdl|([[mn cn] whl] & w0 & _ & H)];
    [done|]. exfalso.
  apply bind_Return_inv in H as [H|(ver & wa & _ & H)];
    [by apply pure_res_not_Return in H|].
  apply bind_Return_inv in H as [H|(? & wb & _ & H)];
    [by apply build_zip_not_Return in H|].
  apply bind_Return_inv in H as [H|(? & wc & _ & H)];
    [by apply ask_not_Return in H|done].
Qed.

(** The handler ends in [download]'s return, in an exception of the first
    half, or in what the publish half does. *)
Lemma handler_inv env event w out w' :
  lambda_handler env event w = (out, w') ->
  (exists r, download env event w = (Return r, w') /\ out = Returned r) \/
  (exists e, prepare env event w = (Exc e, w') /\ out = Raised e) \/
  (exists p w1,
     prepare env event w = (Val p, w1) /\
     ((exists r, (publish env p w1 = (Val r, w') \/
                  publish env p w1 = (Return r, w')) /\ out = Returned r) \/
      (exists e, publish env p w1 = (Exc e, w') /\ out = Raised e))).
Proof.
  intros Hrun.
  destruct (prepare env event w) as [[p|r|e] w1] eqn:Hprep.
  - right. right. exists p, w1. split; [done|].
    rewrite (handler_after_prepare _ _ _ _ _ Hprep) in Hrun.
    destruct (publish env p w1) as [[r|r|e] w2];
      injection Hrun as <- <-; [left|left|right]; eauto.
  - rewrite (handler_prepare_Return _ _ _ _ _ Hprep) in Hrun.
    injection Hrun as <- <-. left. exists r.
    split; [by apply prepare_Return_inv|done].
  - rewrite (handler_prepare_Exc _ _ _ _ _ Hprep) in Hrun.
    injection Hrun as <- <-. right. left. by exists e.
Qed.

(** What the publish half can come to. *)
Lemma publish_inv env p w out w' :
  publish env p w = (out, w') ->
  (exists text,
     out = Return (mkResponse 500 (Some "ServiceException")
             ("There was a problem when calling the Python boto3 publish_layer_version function: "
              +:+ text)) /\
     (boto3_client env = Some text /\ published w' = published w \/
      boto3_client env = None /\
      publish_layer_version env (publish_call_of env p) = Some text /\
      published w' = published w ++ [publish_call_of env p])) \/
  (boto3_client env = None /\
   publish_layer_version env (publish_call_of env p) = None /\
   published w' = published w ++ [publish_call_of env p] /\
   (out = Val (mkResponse 200 None
             ("New layer was succesfully created with the name "
              +:+ LayerName (publish_call_of env p))) \/
    exists e, out = Exc e /\
      (Os.remove (NewZipFolderFileName env (p_ModuleName p) (p_ModuleVersion p))
                 (fs w) = Raise e \/
       exists fs1,
         Os.remove (NewZipFolderFileName env (p_ModuleName p)
                                         (p_ModuleVersion p)) (fs w) = Ok fs1 /\
         Os.rmdir (TmpModuleFolder (p_ModuleName p)) fs1 = Raise e))).
Proof.
  intros Hpub. unfold publish, try_publish in Hpub.
  fold (publish_call_of env p) in Hpub.
  destruct (boto3_client env) as [text|].
  - injection Hpub as <- <-. left. exists text. split; [done|]. by left.
  - destruct (publish_layer_version env (publish_call_of env p))
      as [text|] eqn:Hcall.
    + injection Hpub as <- <-. left. exists text. split; [done|]. by right.
    + right. split; [done|]. split; [done|].
      unfold mbind, M_bind, change in Hpub. simpl in Hpub.
      destruct (Os.remove _ (fs w)) as [fs1|e] eqn:Hrm; simpl in Hpub.
      * destruct (Os.rmdir _ fs1) as [fs2|e] eqn:Hrd;
          injection Hpub as <- <-; simpl.
        -- split; [done|]. by left.
        -- split; [done|]. right. exists e. split; [done|].
           right. by exists fs1.
      * injection Hpub as <- <-. simpl. split; [done|].
        right. exists e. split; [done|]. by left.
Qed.

(** X9.  Every response the handler returns has one of three shapes:
    status 200 without error kind, status 404 with
    [ResourceNotFoundException], or status 500 with [ServiceException]. *)
Theorem response_has_one_of_three_shapes env event w r w' :
  lambda_handler env event w = (Returned r, w') ->
  (StatusCode r = 200%Z /\ FunctionError r = None) \/
  (StatusCode r = 404%Z /\
   FunctionError r = Some "ResourceNotFoundException") \/
  (StatusCode r = 500%Z /\ FunctionError r = Some "ServiceException").
Proof.
  intros [(r0 & Hdl & [= <-])|[(e & _ & [=])|(p & w1 & _ & Hpub)]]%handler_inv.
  - apply download_Return_inv in Hdl as (? & ? & _). right. by left.
  - destruct Hpub as [(r0 & Hpub & [= <-])|(e & _ & [=])].
    destruct Hpub as [Hpub|Hpub];
      apply publish_inv in Hpub
        as [(text & Hout & _)|(_ & _ & _ & [Hout|(e & Hout & _)])];
      try discriminate Hout; injection Hout as ->; [by left|by right; right].
Qed.

Lemma response_shape_witness :
  exists r w',
    lambda_handler (Sample.env Sample.pip_fails Sample.publish_ok)
                   Sample.event_examplepkg Sample.tmp_only = (Returned r, w') /\
    ((StatusCode r = 200%Z /\ FunctionError r = None) \/
     (StatusCode r = 404%Z /\
      FunctionError r = Some "ResourceNotFoundException") \/
     (StatusCode r = 500%Z /\ FunctionError r = Some "ServiceException")).
Proof.
  eexists _, _. split; [vm_compute; reflexivity|].
  eapply (response_has_one_of_three_shapes
            (Sample.env Sample.pip_fails Sample.publish_ok)
            Sample.event_examplepkg Sample.tmp_only).
  vm_compute; reflexivity.
Defined.

(** X10.  A 200 answer means that exactly one publish call was made in
    this invocation, that the call went through, and that the payload ends
    with the layer name the call was made under. *)
Theorem success_names_the_published_layer env event w r w' :
  lambda_handler env event w = (Returned r, w') ->
  StatusCode r = 200%Z ->
  exists call,
    published w' = published w ++ [call] /\
    boto3_client env = None /\
    publish_layer_version env call = None /\
    Payload r =
      "New layer was succesfully created with the name " +:+ LayerName call.
Proof.
  intros [(r0 & Hdl & [= <-])|[(e & _ & [=])|(p & w1 & Hprep & Hpub)]]%handler_inv
    Hcode.
  - apply download_Return_inv in Hdl as (_ & Hnot & _). congruence.
  - destruct Hpub as [(r0 & Hpub & [= <-])|(e & _ & [=])].
    pose proof (keeps_prepare env event w) as Hkeep.
    rewrite Hprep in Hkeep. simpl in Hkeep.
    destruct Hpub as [Hpub|Hpub];
      apply publish_inv in Hpub
        as [(text & Hout & _)|(Hboto & Hcall & Hpubl & [Hout|(e & Hout & _)])];
      try discriminate Hout; injection Hout as ->; try discriminate Hcode.
    eexists. rewrite <- Hkeep. done.
Qed.

Lemma success_witness :
  exists r w' call,
    lambda_handler (Sample.env Sample.pip_examplepkg Sample.publish_ok)
                   Sample.event_examplepkg Sample.tmp_only = (Returned r, w') /\
    published w' = published Sample.tmp_only ++ [call] /\
    Payload r =
      "New layer was succesfully created with the name " +:+ LayerName call.
Proof.
  destruct (success_names_the_published_layer
              (Sample.env Sample.pip_examplepkg Sample.publish_ok)
              Sample.event_examplepkg Sample.tmp_only _ _
              ltac:(vm_compute; reflexivity) eq_refl)
    as (call & Hpub & _ & _ & Hpay).
  eexists _, _, call. split; [vm_compute; reflexivity|]. by split.
Defined.

(** X11.  When the handler reaches the publish step with a boto3 client at
    hand, the one call it makes carries, as content, the wheel that was in
    the download folder after pip ran, relocated under
    [/python/lib/python<X.Y>/site-packages]; it names [python<X.Y>], with
    the same [X.Y], as the only compatible runtime, and has the fixed
    description and an empty licence text. *)
Theorem published_layer_is_the_relocated_wheel env event w p w1 :
  prepare env event w = (Val p, w1) ->
  boto3_client env = None ->
  exists w0 source result call,
    download env event w =
      (Val (p_ModuleName p, p_CustomLayerName p, p_WheelFileName p), w0) /\
    Os.read_file (WheelFolderFileName (p_ModuleName p) (p_WheelFileName p))
                 (fs w0) = Ok (Os.ZipData source) /\
    Zip.relocate
      ("/python/lib/python" +:+ PythonVersionDot env +:+ "/site-packages")
      source = Ok result /\
    published (lambda_handler env event w).2 = published w ++ [call] /\
    Content call = Os.ZipData result /\
    CompatibleRuntimes call = [ "python" +:+ PythonVersionDot env ] /\
    Description call =
      "Layer generated by Lambda function python-add-module-as-layer" /\
    LicenseInfo call = EmptyString.
Proof.
  intros Hprep Hboto.
  destruct (prepare_content _ _ _ _ _ Hprep)
    as (w0 & source & result & Hdl & Hwheel & Hrel & Hcontent).
  exists w0, source, result.
  exists (publish_call_of env p). split; [done|]. split; [done|].
  split; [exact Hrel|].
  split; [exact (handler_publish_call _ _ _ _ _ Hprep Hboto)|].
  simpl. by rewrite <- Hcontent.
Qed.

Lemma published_layer_witness :
  exists call,
    published (lambda_handler
                 (Sample.env Sample.pip_examplepkg Sample.publish_ok)
                 Sample.event_examplepkg Sample.tmp_only).2 = [call] /\
    Zip.m_name <$>
      match Content call with Os.ZipData a => a | Os.RawData _ => [] end
    = [ "/python/lib/python3.9/site-packages/examplepkg/__init__.py";
        "/python/lib/python3.9/site-packages/examplepkg-1.2.3.dist-info/METADATA" ] /\
    CompatibleRuntimes call = [ "python3.9" ].
Proof.
  destruct (published_layer_is_the_relocated_wheel
              (Sample.env Sample.pip_examplepkg Sample.publish_ok)
              Sample.event_examplepkg Sample.tmp_only _ _
              ltac:(vm_compute; reflexivity) eq_refl)
    as (w0 & source & result & call & Hdl & Hwheel & Hrel & Hpub & Hc & Hr & _).
  exists call. split; [exact Hpub|].
  injection Hdl as <-. vm_compute in Hwheel. injection Hwheel as <-.
  vm_compute in Hrel. injection Hrel as <-. rewrite Hc. by split.
Defined.

(** X12.  No invocation makes more than one publish call, and an
    invocation that answers 404 makes none: the record of calls grows by at
    most one entry, and by none when the answer is 404. *)
Theorem at_most_one_publish_call env event w out w' :
  lambda_handler env event w = (out, w') ->
  (published w' = published w \/
   exists call, published w' = published w ++ [call]) /\
  (forall r, out = Returned r -> StatusCode r = 404%Z ->
             published w' = published w).
Proof.
  intros [(r0 & Hdl & ->)|[(e & Hprep & ->)|(p & w1 & Hprep & Hpub)]]%handler_inv.
  - pose proof (keeps_download env event w) as Hkeep.
    rewrite Hdl in Hkeep. split; [by left|done].
  - pose proof (keeps_prepare env event w) as Hkeep.
    rewrite Hprep in Hkeep. split; [by left|done].
  - pose proof (keeps_prepare env event w) as Hkeep.
    rewrite Hprep in Hkeep. simpl in Hkeep. rewrite <- Hkeep.
    destruct Hpub as [(r0 & Hpub & ->)|(e & Hpub & ->)].
    + destruct Hpub as [Hpub|Hpub];
        apply publish_inv in Hpub
          as [(text & Hout & [(_ & Hp)|(_ & _ & Hp)])
             |(_ & _ & Hp & [Hout|(e & Hout & _)])];
        try discriminate Hout; injection Hout as ->;
        (split; [eauto|]); intros r [= <-] Hcode; discriminate Hcode.
    + apply publish_inv in Hpub
        as [(text & Hout & _)|(_ & _ & Hp & _)]; [done|].
      split; [eauto|]. intros r [=].
Qed.

Lemma at_most_one_publish_call_witness :
  exists w',
    lambda_handler (Sample.env Sample.pip_sdist Sample.publish_ok)
                   Sample.event_examplepkg Sample.tmp_only
    = (Returned (NotFound
         "pip was not able to download a wheel file for examplepkg"), w') /\
    published w' = published Sample.tmp_only.
Proof.
  destruct (at_most_one_publish_call
              (Sample.env Sample.pip_sdist Sample.publish_ok)
              Sample.event_examplepkg Sample.tmp_only _ _
              ltac:(vm_compute; reflexivity)) as [_ Hnone].
  eexists. split; [vm_compute; reflexivity|].
  exact (Hnone _ eq_refl eq_refl).
Defined.

(** ** The exceptions that leave the handler *)

Module OsRaiseFacts.
Import Os.

Ltac not_caught :=
  first [ by intros [=] | intros [= <-]; exact (fun H => H) ].

Lemma path_error_not_caught path e :
  path_error path = Some e -> ~ is_caught e.
Proof. unfold path_error. repeat case_match; not_caught. Qed.

Lemma walk_not_caught (fs : FS) comps : forall cur e,
  walk fs cur comps = Some e -> ~ is_caught e.
Proof.
  induction comps as [|c comps IH]; intros cur e; simpl; [done|].
  repeat case_match; try (not_caught); apply IH.
Qed.

Lemma lookup_Raise path (fs : FS) e :
  lookup path fs = Raise e -> ~ is_caught e.
Proof.
  unfold lookup.
  destruct (path_error path) as [e0|] eqn:Hpath.
  { intros [= <-]. by eapply path_error_not_caught. }
  destruct (walk_error path fs) as [e0|] eqn:Hwalk.
  { intros [= <-]. by eapply walk_not_caught. }
  unfold absent_error. repeat case_match; not_caught.
Qed.

Lemma create_Raise path n (fs : FS) e :
  create path n fs = Raise e -> ~ is_caught e.
Proof. unfold create. repeat case_match; not_caught. Qed.

Lemma mkdir_Raise path (fs : FS) e :
  mkdir path fs = Raise e -> e = FileExistsError \/ ~ is_caught e.
Proof.
  unfold mkdir.
  destruct (path_error path) as [e0|] eqn:Hpath.
  { intros [= <-]. right. by eapply path_error_not_caught. }
  destruct (walk_error path fs) as [e0|] eqn:Hwalk.
  { intros [= <-]. right. by eapply walk_not_caught. }
  destruct (node_at fs (resolve path)).
  - intros [= <-]. by left.
  - intros He%create_Raise. by right.
Qed.

Lemma walk_remove_files_Raise top (fs : FS) e :
  walk_remove_files top fs = Raise e -> ~ is_caught e.
Proof. unfold walk_remove_files. repeat case_match; not_caught. Qed.

Lemma listdir_Raise path (fs : FS) e :
  listdir path fs = Raise e -> ~ is_caught e.
Proof.
  unfold listdir. destruct (lookup path fs) as [[d|]|e0] eqn:Hn; simpl;
    try (not_caught). intros [= <-]. by eapply lookup_Raise.
Qed.

Lemma remove_Raise path (fs : FS) e :
  remove path fs = Raise e -> ~ is_caught e.
Proof.
  unfold remove. destruct (lookup path fs) as [[d|]|e0] eqn:Hn; simpl;
    try (not_caught). intros [= <-]. by eapply lookup_Raise.
Qed.

Lemma rmdir_Raise path (fs : FS) e :
  rmdir path fs = Raise e -> ~ is_caught e.
Proof.
  unfold rmdir. destruct (lookup path fs) as [[d|]|e0] eqn:Hn; simpl.
  - not_caught.
  - repeat case_match; not_caught.
  - intros [= <-]. by eapply lookup_Raise.
Qed.

Lemma rmtree_Raise path (fs : FS) e :
  rmtree path fs = Raise e -> ~ is_caught e.
Proof.
  unfold rmtree. destruct (lookup path fs) as [[d|]|e0] eqn:Hn; simpl.
  - not_caught.
  - repeat case_match; not_caught.
  - intros [= <-]. by eapply lookup_Raise.
Qed.

Lemma read_file_Raise path (fs : FS) e :
  read_file path fs = Raise e -> ~ is_caught e.
Proof.
  unfold read_file. destruct (lookup path fs) as [[d|]|e0] eqn:Hn; simpl;
    try (not_caught). intros [= <-]. by eapply lookup_Raise.
Qed.

Lemma open_truncate_Raise path (fs : FS) e :
  open_truncate path fs = Raise e -> ~ is_caught e.
Proof.
  unfold open_truncate.
  destruct (path_error path) as [e0|] eqn:Hpath.
  { intros [= <-]. by eapply path_error_not_caught. }
  destruct (walk_error path fs) as [e0|] eqn:Hwalk.
  { intros [= <-]. by eapply walk_not_caught. }
  destruct (ends_in_slash path); [not_caught|].
  destruct (node_at fs (resolve path)) as [[d|]|];
    [done|not_caught|apply create_Raise].
Qed.

Lemma ZipFile_r_Raise path (fs : FS) e :
  ZipFile_r path fs = Raise e -> ~ is_caught e.
Proof.
  unfold ZipFile_r. destruct (read_file path fs) as [[b|a]|e'] eqn:Hread; simpl.
  - not_caught.
  - done.
  - intros [= <-]. by apply read_file_Raise in Hread.
Qed.

Lemma ZipFile_w_Raise path (fs : FS) e :
  ZipFile_w path fs = Raise e -> ~ is_caught e.
Proof.
  unfold ZipFile_w. destruct (open_truncate path fs) as [fs1|e'] eqn:Hopen;
    simpl; [done|].
  intros [= <-]. by apply open_truncate_Raise in Hopen.
Qed.

End OsRaiseFacts.

Lemma make_folder_Exc_inv name w e w' :
  make_folder name w = (Exc e, w') -> w' = w /\ ~ is_caught e.
Proof.
  unfold make_folder. destruct (Os.mkdir name (fs w)) as [|e0] eqn:Hmk; [done|].
  apply OsRaiseFacts.mkdir_Raise in Hmk as [->|Hmk].
  - destruct (Os.walk_remove_files name (fs w)) as [|e1] eqn:Hwalk; [done|].
    apply OsRaiseFacts.walk_remove_files_Raise in Hwalk. by intros [= <- <-].
  - destruct e0; try (by intros [= <- <-]). by destruct Hmk.
Qed.

Lemma make_folders_Exc name w e w' :
  make_folders name w = (Exc e, w') -> ~ is_caught e.
Proof.
  unfold make_folders.
  intros [H|(? & ? & _ & H)]%bind_Exc_inv;
    by apply make_folder_Exc_inv in H as [_ ?].
Qed.

(** The loop over a freshly opened wheel never raises [KeyError]: the name
    the loop reads under is the name of an object of [infolist()], and
    [NameToInfo] has an entry for it, whatever the loop has assigned to
    the objects it has been through. *)
Lemma relocate_not_caught prefix (source : list Zip.Member) e :
  Zip.relocate prefix source = Raise e -> ~ is_caught e.
Proof.
  intros (m & Hm & Hraise)%ZipFacts.relocate_Raise.
  unfold Zip.relocate_member in Hraise.
  destruct (Zip.read_by_name source (Zip.entry_name m)) as [data|e0] eqn:Hread;
    simpl in Hraise.
  - destruct (Zip.supported _); [|injection Hraise as <-; exact (fun H => H)].
    destruct (Zip.name_fits _); [done|].
    injection Hraise as <-. exact (fun H => H).
  - injection Hraise as <-. by apply ZipFacts.read_by_name_Raise in Hread.
Qed.

Lemma download_Exc env event w e w' :
  download env event w = (Exc e, w') -> ~ is_caught e.
Proof.
  unfold download. intros H.
  apply bind_Exc_inv in H as [H|(mn & wa & _ & H)].
  { unfold get_ModuleName in H. by destruct (event !! "ModuleName"). }
  apply bind_Exc_inv in H as [H|(cn & wb & _ & H)].
  { unfold get_CustomLayerName in H. by destruct (event !! "CustomLayerName"). }
  apply bind_Exc_inv in H as [H|(? & wc & _ & H)];
    [by apply make_folders_Exc in H|].
  apply bind_Exc_inv in H as [H|(? & wd & _ & H)].
  { unfold run_pip in H. destruct (pip_download _ _ _ _ _).
    by destruct (decide _). }
  apply bind_Exc_inv in H as [H|(? & we & _ & H)]; [|done].
  unfold find_wheel in H.
  apply bind_Exc_inv in H as [H|(files & wf & _ & H)].
  - by apply ask_Exc_inv, OsRaiseFacts.listdir_Raise in H.
  - by destruct (decide _).
Qed.

Lemma build_zip_Exc env ModuleName WheelFileName ModuleVersion w e w' :
  build_zip env ModuleName WheelFileName ModuleVersion w = (Exc e, w') ->
  ~ is_caught e.
Proof.
  unfold build_zip. intros H.
  apply bind_Exc_inv in H as [H|(InZipFile & wa & Hin & H)].
  { by apply ask_Exc_inv, OsRaiseFacts.ZipFile_r_Raise in H. }
  apply ask_Val_inv in Hin as [Hin ->]. unfold Os.ZipFile_r in Hin.
  destruct (Os.read_file _ (fs w)) as [[b|source]|]; simpl in Hin; try done.
  injection Hin as <-.
  apply bind_Exc_inv in H as [H|(OutZipFile & wb & Hout & H)].
  { destruct (Os.ZipFile_w _ (fs w)) as [[? ?]|e0] eqn:Hw; [done|].
    injection H as <- _. by apply OsRaiseFacts.ZipFile_w_Raise in Hw. }
  assert (OutZipFile = Zip.open_write) as ->.
  { destruct (Os.ZipFile_w _ (fs w)) as [[zf fs1]|] eqn:Hw; [|done].
    injection Hout as <- _. unfold Os.ZipFile_w in Hw.
    destruct (Os.open_truncate _ (fs w)); [|done]. by injection Hw as <- _. }
  apply bind_Exc_inv in H as [H|(st & wc & _ & H)].
  { unfold pure_res in H. apply ask_Exc_inv in H.
    apply (relocate_not_caught (ExtendedPythonModulePathName env) source).
    unfold Zip.relocate. by rewrite H. }
  apply bind_Exc_inv in H as [H|(? & wd & _ & H)].
  { by apply change_Exc_inv, OsRaiseFacts.remove_Raise in H. }
  apply bind_Exc_inv in H as [H|(? & we & _ & H)].
  { by apply change_Exc_inv in H. }
  by apply change_Exc_inv, OsRaiseFacts.rmtree_Raise in H.
Qed.

Lemma prepare_Exc env event w e w' :
  prepare env event w = (Exc e, w') -> ~ is_caught e.
Proof.
  unfold prepare. intros H.
  apply bind_Exc_inv in H as [H|([[mn cn] whl] & wa & _ & H)];
    [by apply download_Exc in H|].
  apply bind_Exc_inv in H as [H|(ver & wb & _ & H)].
  { unfold pure_res in H. apply ask_Exc_inv in H.
    unfold module_version, PyStr.getitem in H.
    destruct (_ !! 1); [done|]. injection H as <-. exact (fun H => H). }
  apply bind_Exc_inv in H as [H|(? & wc & _ & H)];
    [by apply build_zip_Exc in H|].
  apply bind_Exc_inv in H as [H|(? & wd & _ & H)]; [|done].
  by apply ask_Exc_inv, OsRaiseFacts.read_file_Raise in H.
Qed.

(** An exception that leaves the handler is none of those its [except]
    clauses name. *)
Lemma handler_Exc_not_caught env event w e w' :
  lambda_handler env event w = (Raised e, w') -> ~ is_caught e.
Proof.
  intros [(r0 & _ & [=])|[(e0 & Hprep & [= <-])|(p & w1 & _ & Hpub)]]%handler_inv.
  - by apply prepare_Exc in Hprep.
  - destruct Hpub as [(r0 & _ & [=])|(e0 & Hpub & [= <-])].
    apply publish_inv in Hpub
      as [(text & Hout & _)|(_ & _ & _ & [Hout|(e0 & [= <-] & Hos)])];
      [done|done|].
    destruct Hos as [Hrm|(fs1 & _ & Hrd)].
    + by apply OsRaiseFacts.remove_Raise in Hrm.
    + by apply OsRaiseFacts.rmdir_Raise in Hrd.
Qed.

(** X13.  [KeyError] never leaves the handler.  The two lookups in the
    event are inside [try] blocks that catch it (lines 43-60), and the reads
    by name in the relocation loop (line 179) always find their member:
    the loop reads under the name of an object of [infolist()] before it
    assigns the new name to that object, and [NameToInfo] is keyed by the
    names the objects had when the wheel was opened. *)
Theorem KeyError_never_leaves_the_handler env event w e w' :
  lambda_handler env event w = (Raised e, w') -> ~ is_KeyError e.
Proof.
  intros Hrun%handler_Exc_not_caught Hkey. apply Hrun. by destruct e.
Qed.

Lemma KeyError_never_leaves_witness :
  exists w',
    lambda_handler (Sample.env Sample.pip_no_hyphen Sample.publish_ok)
                   Sample.event_examplepkg Sample.tmp_only
    = (Raised IndexError, w') /\
    ~ is_KeyError IndexError.
Proof.
  eexists. split; [vm_compute; reflexivity|].
  eapply (KeyError_never_leaves_the_handler
            (Sample.env Sample.pip_no_hyphen Sample.publish_ok)
            Sample.event_examplepkg Sample.tmp_only).
  vm_compute; reflexivity.
Defined.

(** X14.  An error of the first [os.mkdir] (line 73) that is not
    [FileExistsError] is not caught: the handler ends with it, pip has not
    been run and nothing has changed. *)
Theorem mkdir_error_ends_the_handler env event w ModuleName e :
  event !! "ModuleName" = Some ModuleName ->
  Os.mkdir (TmpModuleFolder ModuleName) (fs w) = Raise e ->
  e <> FileExistsError ->
  lambda_handler env event w = (Raised e, w).
Proof.
  intros Hev Hmkdir He.
  assert (make_folder (TmpModuleFolder ModuleName) w = (Exc e, w)) as Hmk.
  { unfold make_folder. rewrite Hmkdir. by destruct e. }
  apply handler_prepare_Exc.
  unfold prepare, download. apply bind_Exc.
  unfold get_ModuleName. rewrite Hev.
  unfold mbind at 1, M_bind at 1, mret, M_ret.
  assert (exists cn, get_CustomLayerName event w = (Val cn, w)) as [cn Hcn].
  { unfold get_CustomLayerName. destruct (event !! "CustomLayerName"); eauto. }
  rewrite (bind_Val _ _ _ _ _ Hcn). apply bind_Exc.
  unfold make_folders. by apply bind_Exc.
Qed.

(** A module name with a slash in it: the folder the download folder
    should go into is not there. *)
Lemma mkdir_error_witness :
  lambda_handler (Sample.env Sample.pip_examplepkg Sample.publish_ok)
                 MoreSample.event_slash Sample.tmp_only
  = (Raised FileNotFoundError, Sample.tmp_only).
Proof.
  apply (mkdir_error_ends_the_handler
           (Sample.env Sample.pip_examplepkg Sample.publish_ok)
           MoreSample.event_slash Sample.tmp_only "pkgs/examplepkg").
  - vm_compute; reflexivity.
  - vm_compute; reflexivity.
  - discriminate.
Defined.

(** X15.  The handler answers 404 with [ResourceNotFoundException] exactly
    in the three not-found situations: the event has no [ModuleName]; the
    scratch folders were made and pip exited with something other than 0;
    or pip exited with 0 and no name listed in the download folder passes
    the test of line 121. *)
Theorem not_found_exactly env event w :
  handled_not_found (lambda_handler env event w).1 <->
  not_found_condition env event w.
Proof.
  split.
  - intros (r & Hr & Hcode & _).
    destruct (lambda_handler env event w) as [out w'] eqn:Hrun.
    simpl in Hr. subst out.
    apply status_404_only_from_download in Hrun; [|done].
    apply download_Return_inv in Hrun
      as (_ & _ & [Hmiss|(mn & w1 & output & Hev & Hmk & Hpip & Hwhy)]);
      [by left|].
    right. exists mn, w1. split; [done|]. split; [done|].
    simpl. rewrite Hpip. simpl.
    destruct Hwhy as [?|(_ & files & ? & ?)]; [by left|right; eauto].
  - intros [Hmiss|(mn & w1 & Hev & Hmk & Hwhy)].
    + rewrite (missing_ModuleName_gives_404 _ _ _ Hmiss).
      eexists. by split.
    + simpl in Hwhy.
      destruct (pip_download env mn (TmpModuleFolder mn) TmpPipCacheFolder
                             (fs w1)) as [output fs2] eqn:Hpip.
      simpl in Hwhy.
      destruct (decide (returncode output = 0%Z)) as [Hok|Hfail].
      * destruct Hwhy as [?|(files & Hls & Hnone)]; [done|].
        rewrite (no_wheel_gives_404 _ _ _ _ _ _ _ _ Hev Hmk Hpip Hok Hls Hnone).
        eexists. by split.
      * rewrite (pip_failure_gives_404 _ _ _ _ _ _ _ Hev Hmk Hpip Hfail).
        eexists. by split.
Qed.

(** X16.  A 404 that comes after the event gave a module name is returned
    without any cleaning up: the scratch folders were made, and the file
    system the handler leaves is the one pip left. *)
Theorem not_found_leaves_what_pip_left env event w r w' ModuleName :
  lambda_handler env event w = (Returned r, w') ->
  StatusCode r = 404%Z ->
  event !! "ModuleName" = Some ModuleName ->
  exists w1,
    make_folders ModuleName w = (Val tt, w1) /\
    fs w' = (pip_download env ModuleName (TmpModuleFolder ModuleName)
                          TmpPipCacheFolder (fs w1)).2.
Proof.
  intros Hrun Hcode Hev.
  apply status_404_only_from_download in Hrun; [|done].
  apply download_Return_inv in Hrun
    as (_ & _ & [Hmiss|(mn & w1 & output & Hev' & Hmk & Hpip & _)]);
    [congruence|].
  assert (mn = ModuleName) as -> by congruence.
  exists w1. split; [done|]. by rewrite Hpip.
Qed.

Lemma not_found_leaves_what_pip_left_witness :
  exists w',
    lambda_handler (Sample.env Sample.pip_sdist Sample.publish_ok)
                   Sample.event_examplepkg Sample.tmp_only
    = (Returned (NotFound
         "pip was not able to download a wheel file for examplepkg"), w') /\
    fs w' =
      [ (["tmp"], Os.Dir);
        (["tmp"; "LayerModule_examplepkg"], Os.Dir);
        (["tmp"; "pipcachedir"], Os.Dir);
        (["tmp"; "LayerModule_examplepkg"; "examplepkg-1.2.3.tar.gz"],
         Os.File (Os.RawData [x1f; x8b])) ].
Proof.
  destruct (not_found_leaves_what_pip_left
              (Sample.env Sample.pip_sdist Sample.publish_ok)
              Sample.event_examplepkg Sample.tmp_only _ _ "examplepkg"
              ltac:(vm_compute; reflexivity) eq_refl
              ltac:(vm_compute; reflexivity)) as (w1 & Hmk & Hfs).
  eexists. split; [vm_compute; reflexivity|].
  vm_compute in Hmk. injection Hmk as <-. exact Hfs.
Defined.

(** ** When the relocation loop gets through *)




(** ** Exceptions nobody catches *)

(** X18.  [FileExistsError] never leaves the handler: both [os.mkdir]
    calls are inside [try] blocks that catch it (lines 72-91), and no other
    file system call of the handler raises it; [os.rmdir] on a folder that
    is not empty raises [OSError] with errno 39. *)
Theorem FileExistsError_never_leaves_the_handler env event w e w' :
  lambda_handler env event w = (Raised e, w') -> e <> FileExistsError.
Proof. intros Hrun%handler_Exc_not_caught ->. by apply Hrun. Qed.

(** A file is left in the download folder next to the wheel: after the
    publish call [os.rmdir] raises, and not [FileExistsError]. *)
Lemma FileExistsError_never_leaves_witness :
  exists w',
    lambda_handler (Sample.env Sample.pip_several Sample.publish_ok)
                   Sample.event_examplepkg Sample.tmp_only
    = (Raised (OSError 39), w') /\
    OSError 39 <> FileExistsError.
Proof.
  eexists. split; [vm_compute; reflexivity|].
  eapply (FileExistsError_never_leaves_the_handler
            (Sample.env Sample.pip_several Sample.publish_ok)
            Sample.event_examplepkg Sample.tmp_only).
  vm_compute; reflexivity.
Defined.

(** X19.  An exception of the relocation loop ends the handler: when the
    download step has found a wheel file whose name gives a version, the
    wheel opens as a zip archive and the new zip file can be opened for
    writing, then whatever the loop over the members of the wheel raises
    is what the handler ends with; no response is returned and nothing is
    published. *)
Theorem relocation_error_ends_the_handler
    env event w ModuleName CustomLayerName WheelFileName w0 ModuleVersion
    source fs1 e :
  download env event w
  = (Val (ModuleName, CustomLayerName, WheelFileName), w0) ->
  module_version WheelFileName = Ok ModuleVersion ->
  Os.read_file (WheelFolderFileName ModuleName WheelFileName) (fs w0)
  = Ok (Os.ZipData source) ->
  Os.open_truncate (NewZipFolderFileName env ModuleName ModuleVersion) (fs w0)
  = Ok fs1 ->
  Zip.relocate (ExtendedPythonModulePathName env) source = Raise e ->
  (lambda_handler env event w).1 = Raised e /\
  published (lambda_handler env event w).2 = published w.
Proof.
  intros Hdl Hver Hwheel Hopen Hloop.
  assert (Zip.relocate_loop (ExtendedPythonModulePathName env)
            (seq 0 (length (Zip.filelist (Zip.open_read source))))
            (Zip.open_read source, Zip.open_write) = Raise e) as Hraise.
  { unfold Zip.relocate in Hloop.
    destruct (Zip.relocate_loop _ _ _) as [st|e0]; simpl in Hloop; [done|].
    by injection Hloop as <-. }
  assert (prepare env event w = (Exc e, set_fs w0 fs1)) as Hprep.
  { unfold prepare. rewrite (bind_Val _ _ _ _ _ Hdl).
    unfold pure_res at 1. rewrite (bind_Val _ _ _ _ _ (ask_Ok _ _ _ Hver)).
    apply bind_Exc. unfold build_zip.
    assert (ask (Os.ZipFile_r (WheelFolderFileName ModuleName WheelFileName)) w0
            = (Val (Zip.open_read source), w0)) as Hin.
    { apply ask_Ok. unfold Os.ZipFile_r. by rewrite Hwheel. }
    rewrite (bind_Val _ _ _ _ _ Hin).
    unfold mbind at 1, M_bind at 1, Os.ZipFile_w. rewrite Hopen. simpl.
    apply bind_Exc. unfold pure_res, ask.
    change (length (imap Zip.zinfo_of_member source))
      with (length (Zip.filelist (Zip.open_read source))).
    by rewrite Hraise. }
  rewrite (handler_prepare_Exc _ _ _ _ _ Hprep). split; [done|]. simpl.
  pose proof (keeps_download env event w) as Hkeep.
  rewrite Hdl in Hkeep. done.
Qed.

(** The wheel has a member compressed with method 9. *)
Lemma relocation_error_witness :
  (lambda_handler (Sample.env MoreSample.pip_method9 Sample.publish_ok)
                  Sample.event_examplepkg Sample.tmp_only).1
  = Raised NotImplementedError.
Proof.
  refine (proj1 (relocation_error_ends_the_handler
            (Sample.env MoreSample.pip_method9 Sample.publish_ok)
            Sample.event_examplepkg Sample.tmp_only
            "examplepkg" EmptyString "examplepkg-1.2.3-py3-none-any.whl"
            _ "1.2.3" MoreSample.wheel_method9 _ NotImplementedError
            _ _ _ _ _)).
  - vm_compute; reflexivity.
  - vm_compute; reflexivity.
  - vm_compute; reflexivity.
  - vm_compute; reflexivity.
  - vm_compute; reflexivity.
Defined.
